(** * ARIA helper class: a shallow embedding of [Aria] and its state model

    The JavaScript class [Aria] resolves and mutates accessibility state of
    DOM elements through either a native property or a [role]/[aria-*] pair.
    This development embeds the class method by method and settles the
    properties stated about it.

    Conventions of the embedding
    - an [Element] handed to a method is a [Node] record; a method argument is
      a [target], that is [option Node], [None] standing for [null]/[undefined];
    - [getAttribute] answers [option string] ([None] is [null]);
    - a [TypeError] raised by a property read on [null]/[undefined] is the
      [Throw] outcome of [result];
    - the instance field [this.href] and the console are threaded through the
      state monad [M]. *)

From Stdlib Require Import String Ascii.
From stdpp Require Import gmap strings list fin_maps.

Open Scope string_scope.

(** ** Data model *)

(** An element as the class observes it: tag name, attribute map, the three
    native flags written by the writers, and the rendered text. The flags
    are the properties [t.disabled], [t.checked] and [t.selected]; they are
    kept apart from the attribute map, and a property the element does not
    have reads as [false] (JavaScript answers the falsy [undefined]). *)
Record Node := mkNode {
  tagName   : string;
  attrs     : gmap string string;
  disabled  : bool;
  checked   : bool;
  selected  : bool;
  innerText : string
}.

(** A method argument: an element or [null]/[undefined]. *)
Abbreviation target := (option Node).

(** An element with its children, for subtree queries. *)
#[warnings="-register-all"]
Inductive Tree := T (self : Node) (kids : list Tree).

(** What the class writes to the console. *)
Inductive diag := LacksAriaControls | LacksId | NoLabelAvailable.
Inductive log := Warn (d : diag) | Error (d : diag).

(** The mutable part of the [Aria] instance together with the console. *)
Record St := mkSt {
  href    : option string;
  console : list log
}.

(** ** Outcomes and the two monads *)

Inductive exn := TypeError.

Inductive result (A : Type) :=
| Ok (a : A)
| Throw (e : exn).
Arguments Ok {A} a.
Arguments Throw {A} e.

#[global] Instance result_ret : MRet result := λ A a, Ok a.
#[global] Instance result_bind : MBind result := λ A B f r,
  match r with
  | Ok a => f a
  | Throw e => Throw e
  end.

(** State and exceptions: a computation started in a state either finishes
    with a value and a state, or throws. *)
Definition M (A : Type) : Type := St → result (A * St).

#[global] Instance M_ret : MRet M := λ A a s, Ok (a, s).
#[global] Instance M_bind : MBind M := λ A B f m s,
  match m s with
  | Ok (a, s') => f a s'
  | Throw e => Throw e
  end.

Definition lift {A} (r : result A) : M A := λ s,
  match r with
  | Ok a => Ok (a, s)
  | Throw e => Throw e
  end.

Definition get_href : M (option string) := λ s, Ok (href s, s).
Definition set_href (h : option string) : M unit := λ s,
  Ok (tt, mkSt h (console s)).
Definition console_warn (d : diag) : M unit := λ s,
  Ok (tt, mkSt (href s) (console s ++ [Warn d])).
Definition console_error (d : diag) : M unit := λ s,
  Ok (tt, mkSt (href s) (console s ++ [Error d])).

(** ** JavaScript primitives used by the class *)

(** [t.x] on a nullish [t] throws; [t?.x] answers [undefined]. *)
Definition deref (t : target) : result Node :=
  match t with
  | Some n => Ok n
  | None => Throw TypeError
  end.

(** [a === b] on strings. *)
Definition seq_str (a b : string) : bool := bool_decide (a = b).

(** [a === b] where [b] may be [null]/[undefined]. *)
Definition seq_opt (a : string) (b : option string) : bool :=
  bool_decide (b = Some a).

(** Truthiness of a string-or-null: [null] and the empty string are falsy. *)
Definition truthy (o : option string) : bool :=
  match o with
  | Some s => negb (seq_str s "")
  | None => false
  end.

(** [String(b)], the conversion [setAttribute] applies to a boolean. *)
Definition String_of_bool (b : bool) : string :=
  if b then "true" else "false".

(** [s.split(" ")]: never empty, [""] splits to [[""]]. *)
Fixpoint split_space (s : string) : list string :=
  match s with
  | EmptyString => [""]
  | String c s' =>
      if bool_decide (c = " "%char) then "" :: split_space s'
      else match split_space s' with
           | w :: ws => String c w :: ws
           | [] => [String c ""]
           end
  end.

(** [s.includes(sub)]: [sub] occurs in [s] as a substring. *)
Fixpoint includes (s sub : string) : bool :=
  String.prefix sub s ||
  match s with
  | EmptyString => false
  | String _ s' => includes s' sub
  end.

(** [arr.join(" ")]. *)
Fixpoint join_space (l : list string) : string :=
  match l with
  | [] => ""
  | [w] => w
  | w :: ws => w ++ " " ++ join_space ws
  end.

(** Element methods on a node. *)
Definition getAttribute (n : Node) (k : string) : option string :=
  attrs n !! k.

Definition hasAttribute (n : Node) (k : string) : bool :=
  bool_decide (is_Some (attrs n !! k)).

Definition setAttribute (n : Node) (k v : string) : Node :=
  mkNode (tagName n) (<[k := v]> (attrs n)) (disabled n) (checked n)
         (selected n) (innerText n).

Definition removeAttribute (n : Node) (k : string) : Node :=
  mkNode (tagName n) (delete k (attrs n)) (disabled n) (checked n)
         (selected n) (innerText n).

Definition set_disabled (n : Node) (b : bool) : Node :=
  mkNode (tagName n) (attrs n) b (checked n) (selected n) (innerText n).

Definition set_checked (n : Node) (b : bool) : Node :=
  mkNode (tagName n) (attrs n) (disabled n) b (selected n) (innerText n).

Definition set_selected (n : Node) (b : bool) : Node :=
  mkNode (tagName n) (attrs n) (disabled n) (checked n) b (innerText n).

(** [t.id] reflects the [id] attribute, the empty string when absent. *)
Definition id_of (n : Node) : string := default "" (getAttribute n "id").

(** ** The class [Aria] *)

Definition disabledRoles : list string :=
  ["button"; "group"; "input"; "link"; "menuitem"; "menuitemradio";
   "menuitemcheckbox"; "tab"; "combobox"; "listbox"; "radio"; "radiogroup";
   "checkbox"; "select"; "switch"; "tablist"; "textbox"; "toolbar"].

Definition disabledTags : list string :=
  ["BUTTON"; "FIELDSET"; "OPTGROUP"; "OPTION"; "SELECT"; "TEXTAREA"; "INPUT";
   "PROGRESS"; "A"].

Definition selectedRoles : list string := ["gridcell"; "option"; "row"; "tab"].

Definition selectedTags : list string := ["OPTION"].

Definition checkedRoles : list string :=
  ["checkbox"; "menuitemcheckbox"; "menuitemradio"; "option"; "radio";
   "switch"].

Definition checkedTags : list string := ["INPUT"].

Definition expandedRoles : list string :=
  ["application"; "button"; "checkbox"; "combobox"; "gridcell"; "link";
   "listbox"; "menuitem"; "row"; "rowheader"; "tab"; "treeitem"].

Definition expandedTags : list string := ["BUTTON"].

(** [arr.some(x => x === v)]. *)
Definition some_eq (arr : list string) (v : option string) : bool :=
  existsb (λ x, seq_opt x v) arr.

(** [t?.tagName] and [t?.getAttribute("role")]. *)
Definition tagName_opt (t : target) : option string := tagName <$> t.
Definition role_opt (t : target) : option string :=
  t ≫= λ n, getAttribute n "role".

(** *** Classifiers *)

Definition canDisable (t : target) : bool :=
  some_eq disabledTags (tagName_opt t) || some_eq disabledRoles (role_opt t).

Definition canSelect (t : target) : bool :=
  some_eq selectedTags (tagName_opt t) || some_eq selectedRoles (role_opt t).

Definition canCheck (t : target) : bool :=
  some_eq checkedTags (tagName_opt t) || some_eq checkedRoles (role_opt t).

Definition canExpand (t : target) : bool :=
  some_eq expandedTags (tagName_opt t) || some_eq expandedRoles (role_opt t).

(** *** Readers *)

(** [t.getAttribute(k)], throwing on a nullish [t]. *)
Definition attr_of (t : target) (k : string) : result (option string) :=
  n ← deref t; mret (getAttribute n k).

(** [t.p] for a native flag [p], throwing on a nullish [t]. *)
Definition flag_of (p : Node → bool) (t : target) : result bool :=
  n ← deref t; mret (p n).

Definition isMultiselectable (t : target) : result bool :=
  a ← attr_of t "aria-multiselectable"; mret (seq_opt "true" a).

Definition isExpanded (t : target) : result bool :=
  if negb (canExpand t) then mret false
  else a ← attr_of t "aria-expanded"; mret (seq_opt "true" a).

Definition isChecked (t : target) : result bool :=
  if negb (canCheck t) then mret false
  else
    a ← attr_of t "aria-checked";
    if truthy a then a' ← attr_of t "aria-checked"; mret (seq_opt "true" a')
    else flag_of checked t.

Definition isMixed (t : target) : result bool :=
  if negb (canCheck t) then mret false
  else a ← attr_of t "aria-checked"; mret (seq_opt "mixed" a).

Definition isSelected (t : target) : result bool :=
  if negb (canSelect t) then mret false
  else
    a ← attr_of t "aria-selected";
    if truthy a then a' ← attr_of t "aria-selected"; mret (seq_opt "true" a')
    else flag_of selected t.

Definition isCheckedOrSelected (t : target) : result bool :=
  isChecked t ≫= λ c : bool, if c then mret c else isSelected t.

Definition isDisabled (t : target) : result bool :=
  if negb (canDisable t) then mret false
  else
    a ← attr_of t "aria-disabled";
    if truthy a then a' ← attr_of t "aria-disabled"; mret (seq_opt "true" a')
    else flag_of disabled t.

(** *** Subtree queries *)

(** The elements of a subtree in document order, the root first. *)
Fixpoint flat (t : Tree) : list Node :=
  match t with
  | T n ks => n :: flat_map flat ks
  end.

(** The descendants of a root, which is what [querySelectorAll] ranges over.
    A [Tree] whose root stands for the document node models [document]. *)
Definition descendants (root : Tree) : list Node :=
  match root with
  | T _ ks => flat_map flat ks
  end.

(** The selector shapes the class uses. *)
Inductive simple_sel :=
| SelTag (tag : string)
| SelAttr (a : string)
| SelAttrNot (a v : string)
| SelTagAttrEq (tag a v : string).

(** Type selectors match ASCII case-insensitively; [tagName] is upper case. *)
Definition upper_char (c : ascii) : ascii :=
  let k := nat_of_ascii c in
  if (97 <=? k)%nat && (k <=? 122)%nat then ascii_of_nat (k - 32) else c.

Fixpoint upper (s : string) : string :=
  match s with
  | EmptyString => EmptyString
  | String c s' => String (upper_char c) (upper s')
  end.

Definition matches1 (n : Node) (s : simple_sel) : bool :=
  match s with
  | SelTag tag => seq_str (upper tag) (tagName n)
  | SelAttr a => hasAttribute n a
  | SelAttrNot a v => hasAttribute n a && negb (seq_opt v (getAttribute n a))
  | SelTagAttrEq tag a v =>
      seq_str (upper tag) (tagName n) && seq_opt v (getAttribute n a)
  end.

(** A selector list matches when one of its members does. *)
Definition matches (sel : list simple_sel) (n : Node) : bool :=
  existsb (matches1 n) sel.

Definition querySelectorAll (root : Tree) (sel : list simple_sel) : list Node :=
  filter (λ n, matches sel n = true) (descendants root).

Definition querySelector (root : Tree) (sel : list simple_sel) : option Node :=
  head (querySelectorAll root sel).

(** [document.getElementById(id)]: the first element in tree order whose ID
    is [id]; an empty [id] attribute gives an element no ID. *)
Definition getElementById (document : Tree) (id : string) : option Node :=
  head (filter (λ n, getAttribute n "id" = Some id ∧ id ≠ "")
               (descendants document)).

(** The class field [focusableElements]:
    audio, button, canvas, details, iframe, [href], input, select, summary,
    textarea, video, progress, [accesskey], [contenteditable],
    [tabindex]:not([tabindex="-1"]). *)
Definition focusableElements : list simple_sel :=
  [SelTag "audio"; SelTag "button"; SelTag "canvas"; SelTag "details";
   SelTag "iframe"; SelAttr "href"; SelTag "input"; SelTag "select";
   SelTag "summary"; SelTag "textarea"; SelTag "video"; SelTag "progress";
   SelAttr "accesskey"; SelAttr "contenteditable";
   SelAttrNot "tabindex" "-1"].

(** *** Relationship resolver *)

(** [x.length] and [x.map(f)] on an array that may be [undefined]. *)
Definition array_of {A} (x : option (list A)) : result (list A) :=
  match x with
  | Some l => Ok l
  | None => Throw TypeError
  end.

(** A method call [x.m(...)] on a string that may be [null]. *)
Definition string_of (x : option string) : result string :=
  match x with
  | Some s => Ok s
  | None => Throw TypeError
  end.

Definition getLabelledby (t : target) : result (option (list string)) :=
  attr_of t "aria-labelledby" ≫= λ a : option string,
  mret (split_space <$> a).

Definition getLabelledbyElements (document : Tree) (t : target)
  : result (list (option Node)) :=
  ids ← getLabelledby t;
  l ← array_of ids;
  mret (map (getElementById document) l).

Definition getLabelElement (document : Tree) (t : target)
  : result (option Node) :=
  n ← deref t;
  mret (querySelector document [SelTagAttrEq "label" "for" (id_of n)]).

Definition getControls (t : target) : result (option (list string)) :=
  attr_of t "aria-controls" ≫= λ a : option string,
  mret (split_space <$> a).

Definition getControlsElements (document : Tree) (t : target)
  : result (list (option Node)) :=
  ids ← getControls t;
  l ← array_of ids;
  mret (map (getElementById document) l).

(** [arr.filter(p)] for a predicate that may throw. *)
Fixpoint filterR {A} (p : A → result bool) (l : list A) : result (list A) :=
  match l with
  | [] => Ok []
  | x :: r =>
      p x ≫= λ b : bool,
      filterR p r ≫= λ r' : list A,
      mret (if b then x :: r' else r')
  end.

(** [null] is the [None] answer. *)
Definition getControllingElements (document : Tree) (t : target)
  : M (option (list Node)) :=
  lift (deref t) ≫= λ n : Node,
  if negb (hasAttribute n "id") then
    _ ← console_warn LacksId; mret None
  else
    let allControllers := querySelectorAll document [SelAttr "aria-controls"] in
    r ← lift (filterR (λ item : Node,
                 string_of (getAttribute item "aria-controls") ≫= λ c : string,
                 mret (includes c (id_of n)))
              allControllers);
    mret (Some r).

(** [els.forEach(el => labels.push(el.innerText))]: the texts pushed, or the
    exception of the first [null] element. *)
Fixpoint push_texts (els : list (option Node)) : result (list string) :=
  match els with
  | [] => Ok []
  | el :: r =>
      deref el ≫= λ n : Node,
      push_texts r ≫= λ ts : list string,
      mret (innerText n :: ts)
  end.

Definition NO_LABEL_AVAILABLE : string := "NO LABEL AVAILABLE".

(** An array is truthy whatever it holds, so the first branch is taken as
    soon as [aria-labelledby] is present. *)
Definition getLabelText (document : Tree) (t : target) : M string :=
  lift (getLabelledby t) ≫= λ ids : option (list string),
  if bool_decide (is_Some ids) then
    els ← lift (getLabelledbyElements document t);
    labels ← lift (push_texts els);
    mret (join_space labels)
  else
    lift (attr_of t "aria-label") ≫= λ a : option string,
    if truthy a then
      lift (attr_of t "aria-label" ≫= string_of)
    else
      lift (getLabelElement document t) ≫= λ l : option Node,
      if bool_decide (is_Some l) then
        lift (getLabelElement document t ≫= λ l' : option Node,
              deref l' ≫= λ e : Node, mret (innerText e))
      else
        _ ← console_error NoLabelAvailable;
        mret NO_LABEL_AVAILABLE.

(** *** Writers

    A writer mutates its argument in place; here it answers the element as
    it stands afterwards ([t] itself when the method returns at once). The
    second parameter defaults to [true] in the source; a call that leaves it
    out is the call with [true]. [t] is bound once, so the element read by
    the first [t.x] is the one every later [t.x] reads. *)

Definition handleDisableHref (a : Node) (doDisable : bool) : M Node :=
  _ ← set_href (getAttribute a "href");
  if doDisable then
    let a := removeAttribute a "href" in
    mret (setAttribute a "role" "link")
  else
    get_href ≫= λ h : option string,
    let a := match h with
             | Some v => setAttribute a "href" v
             | None => a
             end in
    mret (removeAttribute a "role").

Definition disable (t : target) (doDisable : bool) : M target :=
  if negb (canDisable t) then mret t
  else
    lift (deref t) ≫= λ n : Node,
    (if some_eq disabledTags (Some (tagName n)) then
       let n := set_disabled n doDisable in
       if seq_str (tagName n) "A" && hasAttribute n "href"
       then handleDisableHref n doDisable
       else mret n
     else mret n) ≫= λ n : Node,
    if some_eq disabledRoles (getAttribute n "role")
    then mret (Some (setAttribute n "aria-disabled" (String_of_bool doDisable)))
    else mret (Some n).

Definition select (t : target) (doSelect : bool) : M target :=
  if negb (canSelect t) then mret t
  else
    lift (deref t) ≫= λ n : Node,
    let n := if some_eq selectedTags (Some (tagName n))
             then set_selected n doSelect else n in
    if some_eq selectedRoles (getAttribute n "role")
    then mret (Some (setAttribute n "aria-selected" (String_of_bool doSelect)))
    else mret (Some n).

(** The [return] inside the tag branch leaves the method as a whole. *)
Definition check (t : target) (doCheck : bool) : M target :=
  if negb (canCheck t) then mret t
  else
    lift (deref t) ≫= λ n : Node,
    let role_branch (n : Node) : M target :=
      if some_eq checkedRoles (getAttribute n "role")
      then mret (Some (setAttribute n "aria-checked" (String_of_bool doCheck)))
      else mret (Some n) in
    if some_eq checkedTags (Some (tagName n)) then
      if negb (seq_opt "radio" (getAttribute n "type")) &&
         negb (seq_opt "checkbox" (getAttribute n "type"))
      then mret (Some n)
      else role_branch (set_checked n doCheck)
    else role_branch n.

Definition expand (t : target) (doExpand : bool) : M target :=
  if negb (canExpand t) then mret t
  else
    lift (getControls t ≫= array_of) ≫= λ ctl : list string,
    (if (length ctl <? 1)%nat then console_warn LacksAriaControls
     else mret tt) ≫= λ _ : unit,
    lift (deref t) ≫= λ n : Node,
    mret (Some (setAttribute n "aria-expanded" (String_of_bool doExpand))).

(** *** Focus set *)

(** Apply [f] in place to every element of a subtree that satisfies [p]. *)
Fixpoint update_where (p : Node → bool) (f : Node → Node) (t : Tree) : Tree :=
  match t with
  | T n ks => T (if p n then f n else n) (map (update_where p f) ks)
  end.

(** [c.querySelectorAll(sel).forEach(f)]: the list is taken before any
    element is touched, and [f] touches only the element it is given. *)
Definition forEach_selected (c : Tree) (sel : list simple_sel)
    (f : Node → Node) : Tree :=
  match c with
  | T n ks => T n (map (update_where (matches sel) f) ks)
  end.

Definition makeUntabbable (c : Tree) (isUntabbable : bool) : Tree :=
  forEach_selected c focusableElements
    (λ el, setAttribute el "tabindex" (if isUntabbable then "-1" else "0")).

(** ** The four axes, for statements that range over them *)

Inductive Axis := Disableable | Selectable | Checkable | Expandable.

Definition supports (a : Axis) : target → bool :=
  match a with
  | Disableable => canDisable
  | Selectable => canSelect
  | Checkable => canCheck
  | Expandable => canExpand
  end.

Definition reader (a : Axis) : target → result bool :=
  match a with
  | Disableable => isDisabled
  | Selectable => isSelected
  | Checkable => isChecked
  | Expandable => isExpanded
  end.

Definition aria_attr (a : Axis) : string :=
  match a with
  | Disableable => "aria-disabled"
  | Selectable => "aria-selected"
  | Checkable => "aria-checked"
  | Expandable => "aria-expanded"
  end.

(** The native flag a reader falls back to; [isExpanded] has none. *)
Definition native_flag (a : Axis) : option (Node → bool) :=
  match a with
  | Disableable => Some disabled
  | Selectable => Some selected
  | Checkable => Some checked
  | Expandable => None
  end.

Definition writer (a : Axis) : target → bool → M target :=
  match a with
  | Disableable => disable
  | Selectable => select
  | Checkable => check
  | Expandable => expand
  end.

(** ** Sample elements and states used by the closed statements *)

Definition el (tag : string) (a : list (string * string)) : Node :=
  mkNode tag (list_to_map a) false false false "".

Definition st0 : St := mkSt None [].

Definition box (a : list (string * string)) (native : bool) : Node :=
  mkNode "INPUT" (list_to_map (("type", "checkbox") :: a))
         false native false "".

(** The statement that an [aria-checked] attribute, whenever present,
    decides [isChecked] on its own. *)
Definition aria_checked_decides (n : Node) : Prop :=
  ∀ v, getAttribute n "aria-checked" = Some v →
       isChecked (Some n) = Ok (seq_str v "true").

(** A page: a tab panel, a button that controls another panel, and a
    button that controls this one. *)
Definition page : Tree :=
  T (el "" [])
    [T (mkNode "DIV" {[ "id" := "tab1" ]} false false false "First")
       [T (el "BUTTON" [("aria-controls", "tab10")]) []];
     T (el "BUTTON" [("aria-controls", "x tab1")]) []].

(** A hyperlink with a navigation target. *)
Definition link_x : Node := el "A" [("href", "x")].

(** [<input type="button" role="switch">]. *)
Definition input_switch : Node :=
  el "INPUT" [("type", "button"); ("role", "switch")].

(** [<button>] with no [aria-controls]. *)
Definition bare_button : Node := el "BUTTON" [].

(** The attribute a simple selector reads, if any. *)
Definition sel_reads (s : simple_sel) : option string :=
  match s with
  | SelTag _ => None
  | SelAttr a | SelAttrNot a _ | SelTagAttrEq _ a _ => Some a
  end.

(** The members of [focusableElements] that do not look at [tabindex]. *)
Definition focusableByNature : list simple_sel :=
  [SelTag "audio"; SelTag "button"; SelTag "canvas"; SelTag "details";
   SelTag "iframe"; SelAttr "href"; SelTag "input"; SelTag "select";
   SelTag "summary"; SelTag "textarea"; SelTag "video"; SelTag "progress";
   SelAttr "accesskey"; SelAttr "contenteditable"].

(** What one call of [makeUntabbable] does to one descendant. *)
Definition retab (isUntabbable : bool) (el : Node) : Node :=
  if matches focusableElements el
  then setAttribute el "tabindex" (if isUntabbable then "-1" else "0")
  else el.

(** A region whose only descendant is focusable through [tabindex] alone. *)
Definition region : Tree :=
  T (el "SECTION" []) [T (el "DIV" [("tabindex", "0")]) []].

(** ** Further methods of the class *)

(** *** Focusable elements

    [canBeFocused] reads four properties the browser computes: [tabIndex],
    [offsetWidth], [offsetHeight] and the number of client rectangles. They
    are taken from a rendering, which answers them for each element. *)
Record Rendering := mkRendering {
  tabIndex     : Node → Z;
  offsetWidth  : Node → Z;
  offsetHeight : Node → Z;
  clientRects  : Node → nat
}.

(** ASCII whitespace, which separates the tokens of a [class] attribute. *)
Definition is_ws (c : ascii) : bool :=
  existsb (Nat.eqb (nat_of_ascii c)) [9; 10; 12; 13; 32]%nat.

Fixpoint split_ws (s : string) : list string :=
  match s with
  | EmptyString => [""]
  | String c s' =>
      if is_ws c then "" :: split_ws s'
      else match split_ws s' with
           | w :: ws => String c w :: ws
           | [] => [String c ""]
           end
  end.

(** [t.classList]: the non-empty tokens of the [class] attribute. *)
Definition classList (n : Node) : list string :=
  filter (λ w, w ≠ "") (split_ws (default "" (getAttribute n "class"))).

Definition classList_contains (n : Node) (c : string) : bool :=
  bool_decide (c ∈ classList n).

(** Truthiness of a number: zero is falsy. *)
Definition truthy_Z (z : Z) : bool := negb (z =? 0)%Z.
Definition truthy_nat (k : nat) : bool := negb (k =? 0)%nat.

Definition canBeFocused (r : Rendering) (t : target) : result bool :=
  deref t ≫= λ n : Node,
  let hasTabIndex := (tabIndex r n >? -1)%Z in
  let isVisible :=
    truthy_Z (offsetWidth r n) || truthy_Z (offsetHeight r n) ||
    truthy_nat (clientRects r n) in
  let isNotHidden :=
    negb (hasAttribute n "hidden") && negb (classList_contains n "hidden") &&
    negb (classList_contains n "d-none") in
  let isNotDisabled := negb (hasAttribute n "disabled") in
  let isNotABumper := negb (hasAttribute n "data-focus-bumper") in
  mret (hasTabIndex && isVisible && isNotHidden && isNotDisabled &&
        isNotABumper).

Definition getFocusableElements (r : Rendering) (t : Tree)
  : result (list Node) :=
  filterR (λ item : Node, canBeFocused r (Some item))
          (querySelectorAll t focusableElements).

(** [arr.find(p)], [undefined] when nothing is found. *)
Definition find_first {A} (p : A → bool) (l : list A) : option A :=
  head (filter (λ x, p x = true) l).

Definition getLastFocusableNode (r : Rendering) (t : Tree)
  : result (option Node) :=
  getFocusableElements r t ≫= λ l : list Node,
  mret (find_first (λ element, (tabIndex r element >? -1)%Z) (reverse l)).

Definition getFirstFocusableNode (r : Rendering) (t : Tree)
  : result (option Node) :=
  getFocusableElements r t ≫= λ l : list Node,
  mret (find_first (λ element, (tabIndex r element >? -1)%Z) l).

(** *** Active descendant *)

(** The value of [t?.getAttribute(k)]: [undefined] on a nullish [t], [null]
    when the attribute is absent. *)
Inductive jsval := JUndefined | JNull | JStr (s : string).

(** The conversion a DOM method applies to a string argument. *)
Definition ToString (v : jsval) : string :=
  match v with
  | JUndefined => "undefined"
  | JNull => "null"
  | JStr s => s
  end.

Definition getActivedescendant (t : target) : jsval :=
  match t with
  | None => JUndefined
  | Some n =>
      match getAttribute n "aria-activedescendant" with
      | Some s => JStr s
      | None => JNull
      end
  end.

Definition getActivedescendantElement (document : Tree) (t : target)
  : option Node :=
  getElementById document (ToString (getActivedescendant t)).

(** ** Auxiliary notions for the further properties *)

(** The attributes a writer may write or remove. *)
Definition touched (a : Axis) : list string :=
  match a with
  | Disableable => ["aria-disabled"; "href"; "role"]
  | Selectable => ["aria-selected"]
  | Checkable => ["aria-checked"]
  | Expandable => ["aria-expanded"]
  end.

(** The role set of an axis. *)
Definition axis_roles (a : Axis) : list string :=
  match a with
  | Disableable => disabledRoles
  | Selectable => selectedRoles
  | Checkable => checkedRoles
  | Expandable => expandedRoles
  end.

(** The root element of a subtree. *)
Definition root (t : Tree) : Node :=
  match t with
  | T n _ => n
  end.

(** A rendering for the examples: [tabIndex] follows a [tabindex] of
    ["-1"], everything is laid out. *)
Definition plain_rendering : Rendering :=
  mkRendering
    (λ n, if seq_opt "-1" (getAttribute n "tabindex") then (-1)%Z else 0%Z)
    (λ _, 10%Z) (λ _, 10%Z) (λ _, 1%nat).

(** A toolbar: a button, a link with [tabindex="3"], a hidden input, a
    button hidden by its class and a plain paragraph. *)
Definition toolbar : Tree :=
  T (el "DIV" [("role", "toolbar")])
    [T (el "BUTTON" []) [];
     T (el "A" [("href", "x"); ("tabindex", "3")]) [];
     T (el "INPUT" [("hidden", "")]) [];
     T (el "BUTTON" [("class", "btn d-none")]) [];
     T (el "P" []) []].

(** Whether a fallible test answered [true]. *)
Definition ok_true (x : result bool) : bool :=
  match x with
  | Ok true => true
  | _ => false
  end.

(** The native tag set of an axis. *)
Definition axis_tags (a : Axis) : list string :=
  match a with
  | Disableable => disabledTags
  | Selectable => selectedTags
  | Checkable => checkedTags
  | Expandable => expandedTags
  end.

(** The value a computation finishes with, the state put aside. *)
Definition outcome {A} (r : result (A * St)) : result A :=
  match r with
  | Ok (a, _) => Ok a
  | Throw e => Throw e
  end.

(** A list whose only item has the identifier ["null"]. *)
Definition null_page : Tree :=
  T (el "" []) [T (el "UL" []) [T (el "LI" [("id", "null")]) []]].

(** * Properties *)

(** Unfold the plumbing of the two monads. *)
Ltac run :=
  unfold lift; unfold mbind, mret;
  unfold M_bind, M_ret, result_bind, result_ret; cbn beta iota.

(** ** Classifiers and guards *)

Lemma some_eq_None arr : some_eq arr None = false.
Proof. induction arr as [|x arr IH]; [done | simpl; by rewrite IH]. Qed.

Lemma supports_null a : supports a None = false.
Proof. by destruct a. Qed.

Lemma supports_deref a t :
  supports a t = true → ∃ n, t = Some n.
Proof.
  destruct t as [n|]; [by eexists |].
  rewrite supports_null. discriminate.
Qed.

(** Every reader that starts with a capability guard answers a boolean on
    every argument, and [false] on [null]. *)
Lemma guarded_reader_total a t : ∃ b, reader a t = Ok b.
Proof.
  destruct t as [n|]; [| destruct a; by exists false].
  destruct a; cbn [reader];
    unfold isDisabled, isSelected, isChecked, isExpanded;
    cbn -[canDisable canSelect canCheck canExpand];
    repeat case_match; by eexists.
Qed.

Lemma guarded_reader_null a : reader a None = Ok false.
Proof. by destruct a. Qed.

Lemma isMixed_total t : ∃ b, isMixed t = Ok b.
Proof.
  destruct t as [n|]; [| by exists false].
  unfold isMixed. case_match; by eexists.
Qed.

Lemma isCheckedOrSelected_total t : ∃ b, isCheckedOrSelected t = Ok b.
Proof.
  unfold isCheckedOrSelected.
  destruct (guarded_reader_total Checkable t) as [c Hc].
  destruct (guarded_reader_total Selectable t) as [d Hd].
  cbn in Hc, Hd. rewrite Hc. cbn. destruct c; [by eexists |].
  rewrite Hd. by eexists.
Qed.

Lemma isCheckedOrSelected_null : isCheckedOrSelected None = Ok false.
Proof. reflexivity. Qed.

(** On an element, [isMultiselectable] answers a boolean. *)
Lemma isMultiselectable_element n :
  isMultiselectable (Some n) =
  Ok (seq_opt "true" (getAttribute n "aria-multiselectable")).
Proof. reflexivity. Qed.

(** C6: the classifiers and the guarded readers answer [false] on [null],
    but [isMultiselectable] reads [t.getAttribute] with no guard and no
    optional chaining: on [null] it raises a [TypeError]. *)
Theorem isMultiselectable_null_raises :
  canDisable None = false ∧ canSelect None = false ∧
  canCheck None = false ∧ canExpand None = false ∧
  isDisabled None = Ok false ∧ isSelected None = Ok false ∧
  isChecked None = Ok false ∧ isExpanded None = Ok false ∧
  isMixed None = Ok false ∧ isCheckedOrSelected None = Ok false ∧
  isMultiselectable None = Throw TypeError.
Proof. repeat split. Qed.

(** ** Unsupported axes *)

Lemma isMixed_unsupported t : canCheck t = false → isMixed t = Ok false.
Proof. unfold isMixed. by intros ->. Qed.

(** C7: when the capability predicate of an axis is false on a node, the
    reader of the axis answers [false] and the writer, whatever value it is
    given, leaves the node (attributes and native flags) and the instance
    state as they were. *)
Theorem unsupported_axis_inert (a : Axis) (t : target) (v : bool) (s : St) :
  supports a t = false →
  reader a t = Ok false ∧ writer a t v s = Ok (t, s).
Proof.
  intros H. destruct a; cbn in H;
    cbn -[canDisable canSelect canCheck canExpand];
    unfold isDisabled, isSelected, isChecked, isExpanded,
           disable, select, check, expand;
    rewrite H; done.
Qed.

Lemma unsupported_axis_inert_witness :
  supports Checkable (Some (el "DIV" [("aria-checked", "true")])) = false ∧
  reader Checkable (Some (el "DIV" [("aria-checked", "true")])) = Ok false ∧
  writer Checkable (Some (el "DIV" [("aria-checked", "true")])) true st0
  = Ok (Some (el "DIV" [("aria-checked", "true")]), st0).
Proof.
  split; [reflexivity |].
  apply (unsupported_axis_inert Checkable
           (Some (el "DIV" [("aria-checked", "true")])) true st0).
  reflexivity.
Defined.

(** ** Precedence of the ARIA attribute over the native flag *)

Lemma seq_opt_Some a v : seq_opt a (Some v) = seq_str v a.
Proof. apply bool_decide_ext. split; [by intros [= ->] | by intros ->]. Qed.

Lemma truthy_Some v : truthy (Some v) = negb (seq_str v "").
Proof. reflexivity. Qed.

(** What a flag-backed reader answers on a node that supports its axis: a
    truthy attribute value decides, anything else defers to the flag. *)
Lemma reader_resolves (a : Axis) (f : Node → bool) (n : Node) :
  native_flag a = Some f →
  supports a (Some n) = true →
  reader a (Some n) =
  Ok (match getAttribute n (aria_attr a) with
      | Some v => if seq_str v "" then f n else seq_str v "true"
      | None => f n
      end).
Proof.
  intros Hf Hs.
  destruct a; cbn in Hf, Hs; simplify_eq;
    cbn [reader aria_attr];
    unfold isDisabled, isSelected, isChecked; rewrite Hs;
    cbn -[truthy seq_opt seq_str];
    (destruct (getAttribute n _) as [v|] eqn:Hv;
     [ rewrite truthy_Some; destruct (seq_str v ""); cbn -[seq_opt seq_str];
       [done | by rewrite seq_opt_Some]
     | done ]).
Qed.

(** C8, as the code has it: on a node that supports the checkable axis a
    non-empty [aria-checked] value decides [isChecked] against the native
    flag, so ["false"] with a set flag reads [false]; the native flag is read
    when the attribute is absent or empty. *)
Theorem isChecked_aria_precedence (n : Node) :
  canCheck (Some n) = true →
  (∀ v, getAttribute n "aria-checked" = Some v → v ≠ "" →
        isChecked (Some n) = Ok (seq_str v "true")) ∧
  (getAttribute n "aria-checked" = Some "false" →
        isChecked (Some n) = Ok false) ∧
  (getAttribute n "aria-checked" = None ∨
   getAttribute n "aria-checked" = Some "" →
        isChecked (Some n) = Ok (checked n)).
Proof.
  intros Hs.
  pose proof (reader_resolves Checkable checked n eq_refl Hs) as R.
  cbn [reader aria_attr] in R. rewrite R. clear R.
  split; [| split].
  - intros v -> Hv. unfold seq_str at 1. by rewrite bool_decide_eq_false_2.
  - by intros ->.
  - by intros [-> | ->].
Qed.

Lemma isChecked_aria_precedence_witness :
  canCheck (Some (box [("aria-checked", "false")] true)) = true ∧
  isChecked (Some (box [("aria-checked", "false")] true)) = Ok false.
Proof.
  split; [reflexivity |].
  apply (isChecked_aria_precedence (box [("aria-checked", "false")] true));
    reflexivity.
Defined.

(** C8 as stated fails on an empty attribute: the node carries
    [aria-checked=""], the native flag is set, and [isChecked] answers
    [true] although the attribute value is not ["true"]. *)
Lemma isChecked_empty_attribute_counterexample :
  canCheck (Some (box [("aria-checked", "")] true)) = true ∧
  getAttribute (box [("aria-checked", "")] true) "aria-checked" = Some "" ∧
  isChecked (Some (box [("aria-checked", "")] true)) = Ok true ∧
  ¬ aria_checked_decides (box [("aria-checked", "")] true).
Proof.
  repeat split.
  intros H. specialize (H "" eq_refl). discriminate H.
Qed.

(** C9: on a node that supports the axis, an ARIA attribute that is present
    but empty does not decide: [isChecked], [isSelected] and [isDisabled]
    answer the native flag. *)
Theorem empty_aria_value_reads_native (a : Axis) (f : Node → bool) (n : Node) :
  native_flag a = Some f →
  supports a (Some n) = true →
  getAttribute n (aria_attr a) = Some "" →
  reader a (Some n) = Ok (f n).
Proof.
  intros Hf Hs He. rewrite (reader_resolves a f n Hf Hs), He. reflexivity.
Qed.

Lemma empty_aria_value_reads_native_witness :
  native_flag Checkable = Some checked ∧
  supports Checkable (Some (box [("aria-checked", "")] true)) = true ∧
  getAttribute (box [("aria-checked", "")] true) (aria_attr Checkable)
  = Some "" ∧
  reader Checkable (Some (box [("aria-checked", "")] true)) = Ok true.
Proof.
  do 3 (split; [reflexivity |]).
  apply (empty_aria_value_reads_native Checkable checked
           (box [("aria-checked", "")] true)); reflexivity.
Defined.

(** The same on the other two flag-backed axes. *)
Example isSelected_empty_attribute :
  isSelected (Some (mkNode "OPTION" {[ "aria-selected" := "" ]}
                           false false true "")) = Ok true.
Proof. reflexivity. Qed.

Example isDisabled_empty_attribute :
  isDisabled (Some (mkNode "BUTTON" {[ "aria-disabled" := "" ]}
                           true false false "")) = Ok true.
Proof. reflexivity. Qed.

(** ** Label text *)

Lemma push_texts_null (els : list (option Node)) :
  None ∈ els → push_texts els = Throw TypeError.
Proof.
  induction els as [|el r IH]; intros Hin.
  - by apply elem_of_nil in Hin.
  - apply elem_of_cons in Hin as [<- | Hin]; [reflexivity |].
    destruct el as [m|]; [| reflexivity].
    cbn. rewrite (IH Hin). reflexivity.
Qed.

Lemma push_texts_resolved (ns : list Node) :
  push_texts (Some <$> ns) = Ok (innerText <$> ns).
Proof.
  induction ns as [|m ns IH]; [reflexivity |].
  cbn. rewrite IH. reflexivity.
Qed.

(** C10: when [aria-labelledby] is present and one of its identifiers
    resolves to no element, [getLabelText] raises the [TypeError] of reading
    [innerText] on [null]; it neither skips the identifier nor answers the
    no-label sentinel. *)
Theorem getLabelText_unresolved_raises
    (document : Tree) (n : Node) (refs id : string) (s : St) :
  getAttribute n "aria-labelledby" = Some refs →
  id ∈ split_space refs →
  getElementById document id = None →
  getLabelText document (Some n) s = Throw TypeError.
Proof.
  intros Hattr Hid Hnone.
  unfold getLabelText, getLabelledbyElements, getLabelledby, attr_of.
  run. cbn [deref array_of]. rewrite Hattr. cbn [fmap option_fmap option_map].
  rewrite bool_decide_eq_true_2 by eauto. cbn [array_of].
  rewrite push_texts_null; [reflexivity |].
  rewrite <- Hnone. apply list_elem_of_fmap. eauto.
Qed.

Lemma getLabelText_unresolved_raises_witness :
  getLabelText page (Some (el "INPUT" [("aria-labelledby", "tab1 nope")])) st0
  = Throw TypeError.
Proof.
  apply (getLabelText_unresolved_raises page
           (el "INPUT" [("aria-labelledby", "tab1 nope")])
           "tab1 nope" "nope" st0).
  - reflexivity.
  - vm_compute. apply list_elem_of_In. simpl. auto.
  - reflexivity.
Defined.

(** The other branches, for comparison: resolved references are joined, and
    a node with no label at all gets the sentinel and a console error. *)
Example getLabelText_resolved :
  getLabelText page (Some (el "INPUT" [("aria-labelledby", "tab1")])) st0
  = Ok ("First", st0).
Proof. reflexivity. Qed.

Example getLabelText_sentinel :
  getLabelText page (Some (el "INPUT" [])) st0
  = Ok (NO_LABEL_AVAILABLE, mkSt None [Error NoLabelAvailable]).
Proof. reflexivity. Qed.

(** ** Expanding *)

Lemma split_space_length (s : string) : (1 ≤ length (split_space s))%nat.
Proof.
  induction s as [|c s IH]; cbn; [lia |].
  case_bool_decide; cbn; [lia |].
  destruct (split_space s); cbn; lia.
Qed.

(** With no [aria-controls] attribute [getControls] answers [undefined], and
    reading its [length] raises before anything is written. *)
Lemma expand_without_controls (n : Node) (v : bool) (s : St) :
  canExpand (Some n) = true →
  getAttribute n "aria-controls" = None →
  expand (Some n) v s = Throw TypeError.
Proof.
  intros Hc Ha. unfold expand, getControls, attr_of. rewrite Hc.
  run. cbn [negb deref]. rewrite Ha. reflexivity.
Qed.

(** With the attribute present, whatever its value, the list is never empty:
    no warning is written and [aria-expanded] is set. *)
Lemma expand_with_controls (n : Node) (c : string) (v : bool) (s : St) :
  canExpand (Some n) = true →
  getAttribute n "aria-controls" = Some c →
  expand (Some n) v s
  = Ok (Some (setAttribute n "aria-expanded" (String_of_bool v)), s).
Proof.
  intros Hc Ha. unfold expand, getControls, attr_of. rewrite Hc.
  run. cbn [negb deref]. rewrite Ha. cbn [fmap option_fmap option_map array_of].
  pose proof (split_space_length c) as Hl.
  destruct (split_space c) as [|w ws]; [cbn in Hl; lia |].
  reflexivity.
Qed.

(** C3 at a button without [aria-controls]: the node supports the expandable
    axis, and [expand] raises instead of warning and setting
    [aria-expanded]. *)
Theorem expand_button_without_controls_raises :
  canExpand (Some bare_button) = true ∧
  getControls (Some bare_button) = Ok None ∧
  expand (Some bare_button) true st0 = Throw TypeError.
Proof. repeat split. Qed.

(** ** Checking *)

(** On an [INPUT] whose [type] is neither [radio] nor [checkbox] the method
    returns from inside the tag branch: nothing is written, whatever the
    role. *)
Lemma check_input_other_type (n : Node) (v : bool) (s : St) :
  tagName n = "INPUT" →
  getAttribute n "type" ≠ Some "radio" →
  getAttribute n "type" ≠ Some "checkbox" →
  check (Some n) v s = Ok (Some n, s).
Proof.
  intros Ht Hr Hc.
  assert (canCheck (Some n) = true) as Hcan
    by (unfold canCheck; cbn; rewrite Ht; reflexivity).
  unfold check. rewrite Hcan. run. cbn [negb deref]. rewrite Ht.
  replace (seq_opt "radio" (getAttribute n "type")) with false
    by (symmetry; by apply bool_decide_eq_false_2).
  replace (seq_opt "checkbox" (getAttribute n "type")) with false
    by (symmetry; by apply bool_decide_eq_false_2).
  reflexivity.
Qed.

(** C2 at [<input type="button" role="switch">]: the role is in the
    checkable role set, yet after [check(node, true)] the node is as before
    and carries no [aria-checked]. *)
Theorem check_input_button_switch_skips_role :
  some_eq checkedTags (Some (tagName input_switch)) = true ∧
  some_eq checkedRoles (getAttribute input_switch "role") = true ∧
  check (Some input_switch) true st0 = Ok (Some input_switch, st0) ∧
  getAttribute input_switch "aria-checked" = None.
Proof. repeat split. Qed.

(** Where the role branch does run: a role-only checkbox. *)
Example check_role_only :
  check (Some (el "DIV" [("role", "checkbox")])) true st0
  = Ok (Some (el "DIV" [("role", "checkbox"); ("aria-checked", "true")]), st0).
Proof. reflexivity. Qed.

(** ** Disabling and enabling a hyperlink *)

Lemma canDisable_anchor (n : Node) : tagName n = "A" → canDisable (Some n) = true.
Proof. intros Ht. unfold canDisable. cbn. rewrite Ht. reflexivity. Qed.

Lemma hasAttribute_Some (n : Node) (k v : string) :
  getAttribute n k = Some v → hasAttribute n k = true.
Proof. intros H. apply bool_decide_eq_true_2. unfold getAttribute in H. eauto. Qed.

Lemma hasAttribute_None (n : Node) (k : string) :
  getAttribute n k = None → hasAttribute n k = false.
Proof.
  intros H. apply bool_decide_eq_false_2. unfold getAttribute in H.
  rewrite H. by intros [? ?].
Qed.

(** Disabling a link that has a target: the target is remembered in
    [this.href] and removed, the role becomes [link], and since [link] is a
    disableable role [aria-disabled] is written too. *)
Lemma disable_anchor_with_href (n : Node) (h : string) (s : St) :
  tagName n = "A" →
  getAttribute n "href" = Some h →
  disable (Some n) true s
  = Ok (Some (setAttribute
                (setAttribute (removeAttribute (set_disabled n true) "href")
                              "role" "link")
                "aria-disabled" "true"),
        mkSt (Some h) (console s)).
Proof.
  intros Ht Hh. unfold disable. rewrite (canDisable_anchor n Ht).
  unfold handleDisableHref, set_href, get_href. run. cbn [negb deref].
  cbn [tagName set_disabled]. rewrite Ht.
  rewrite (hasAttribute_Some (set_disabled n true) "href" h) by exact Hh.
  change (getAttribute (set_disabled n true) "href")
    with (getAttribute n "href").
  rewrite Hh.
  change (some_eq disabledTags (Some "A")) with true.
  change (seq_str "A" "A") with true. cbn [andb]. cbv beta iota.
  replace (getAttribute
             (setAttribute (removeAttribute (set_disabled n true) "href")
                           "role" "link") "role")
    with (Some "link")
    by (unfold getAttribute; cbn; by rewrite lookup_insert_eq).
  reflexivity.
Qed.

(** Enabling (or disabling) a link that has no target never reaches
    [handleDisableHref]: only the native flag and, under a disableable role,
    [aria-disabled] are written. *)
Lemma disable_anchor_without_href (n : Node) (v : bool) (s : St) :
  tagName n = "A" →
  getAttribute n "href" = None →
  disable (Some n) v s
  = Ok (Some (if some_eq disabledRoles (getAttribute n "role")
              then setAttribute (set_disabled n v) "aria-disabled"
                                (String_of_bool v)
              else set_disabled n v),
        s).
Proof.
  intros Ht Hh. unfold disable. rewrite (canDisable_anchor n Ht).
  run. cbn [negb deref]. cbn [tagName set_disabled]. rewrite Ht.
  rewrite (hasAttribute_None (set_disabled n v) "href") by exact Hh.
  change (some_eq disabledTags (Some "A")) with true.
  change (seq_str "A" "A") with true. cbn [andb]. cbv beta iota.
  change (getAttribute (set_disabled n v) "role")
    with (getAttribute n "role").
  destruct (some_eq disabledRoles (getAttribute n "role")); reflexivity.
Qed.

(** The round trip on any link with a target: the second call finds no
    [href] attribute, so nothing is restored; the link ends without a target
    and with the role [link]. *)
Lemma disable_then_enable_anchor (n : Node) (h : string) (s : St) :
  tagName n = "A" →
  getAttribute n "href" = Some h →
  ∃ n',
    (disable (Some n) true ≫= λ t : target, disable t false) s
    = Ok (Some n', mkSt (Some h) (console s)) ∧
    getAttribute n' "href" = None ∧
    getAttribute n' "role" = Some "link" ∧
    disabled n' = false.
Proof.
  intros Ht Hh.
  set (n1 := setAttribute
               (setAttribute (removeAttribute (set_disabled n true) "href")
                             "role" "link")
               "aria-disabled" "true").
  assert (tagName n1 = "A") as Ht1 by exact Ht.
  assert (getAttribute n1 "href" = None) as Hh1.
  { unfold n1, getAttribute. cbn. by simplify_map_eq. }
  assert (getAttribute n1 "role" = Some "link") as Hr1.
  { unfold n1, getAttribute. cbn. by simplify_map_eq. }
  exists (setAttribute (set_disabled n1 false) "aria-disabled" "false").
  split; [| split; [| split]].
  - change ((disable (Some n) true ≫= λ t : target, disable t false) s)
      with (match disable (Some n) true s with
            | Ok (t, s') => disable t false s'
            | Throw e => Throw e
            end).
    rewrite (disable_anchor_with_href n h s Ht Hh). fold n1.
    rewrite (disable_anchor_without_href n1 false _ Ht1 Hh1), Hr1.
    reflexivity.
  - unfold getAttribute in *. cbn in *. by simplify_map_eq.
  - unfold getAttribute in *. cbn in *. by simplify_map_eq.
  - reflexivity.
Qed.

(** C1 at [<a href="x">]: after [disable(node, true)] and then
    [disable(node, false)] the target is not restored and the role is not
    removed. *)
Theorem disable_then_enable_loses_href :
  getAttribute link_x "href" = Some "x" ∧
  (disable (Some link_x) true ≫= λ t : target, disable t false) st0
  = Ok (Some (el "A" [("role", "link"); ("aria-disabled", "false")]),
        mkSt (Some "x") []) ∧
  getAttribute (el "A" [("role", "link"); ("aria-disabled", "false")]) "href"
  = None.
Proof. repeat split. Qed.

(** What the enabling branch of [handleDisableHref] does when it is reached:
    the cell is overwritten with the current target first, so the element
    keeps the target it already has. *)
Lemma handleDisableHref_enable (a : Node) (h : string) (s : St) :
  getAttribute a "href" = Some h →
  handleDisableHref a false s
  = Ok (removeAttribute a "role", mkSt (Some h) (console s)).
Proof.
  intros Hh. unfold handleDisableHref, set_href, get_href. run. cbn.
  rewrite Hh. unfold setAttribute. unfold getAttribute in Hh.
  rewrite (insert_id _ _ _ Hh). by destruct a.
Qed.

(** ** Controlling elements *)

Lemma filterR_total {A} (p : A → result bool) (q : A → bool) (l : list A) :
  (∀ x, x ∈ l → p x = Ok (q x)) →
  filterR p l = Ok (filter (λ x, q x = true) l).
Proof.
  induction l as [|x l IH]; intros H; [reflexivity |].
  cbn [filterR]. rewrite (H x) by constructor.
  rewrite IH by (intros y Hy; apply H; by constructor).
  run. rewrite filter_cons. destruct (q x); by case_decide.
Qed.

Lemma querySelectorAll_spec (root : Tree) (sel : list simple_sel) (n : Node) :
  n ∈ querySelectorAll root sel ↔ n ∈ descendants root ∧ matches sel n = true.
Proof. unfold querySelectorAll. rewrite list_elem_of_filter. tauto. Qed.

(** What the reverse lookup computes for a node that has an [id]
    attribute: the elements carrying [aria-controls] whose attribute text
    contains the identifier as a substring. *)
Lemma getControllingElements_spec (document : Tree) (n : Node) (s : St) :
  hasAttribute n "id" = true →
  getControllingElements document (Some n) s
  = Ok (Some (filter
                (λ item, includes (default "" (getAttribute item "aria-controls"))
                                  (id_of n) = true)
                (querySelectorAll document [SelAttr "aria-controls"])),
        s).
Proof.
  intros Hid. unfold getControllingElements. run. cbn [deref].
  rewrite Hid. cbn [negb].
  rewrite (filterR_total _
             (λ item, includes (default "" (getAttribute item "aria-controls"))
                               (id_of n))); [reflexivity |].
  intros item [_ Hm]%querySelectorAll_spec.
  cbn in Hm. rewrite orb_false_r in Hm.
  apply bool_decide_eq_true_1 in Hm as [c Hc].
  unfold getAttribute. rewrite Hc. reflexivity.
Qed.

Lemma getControllingElements_no_id (document : Tree) (n : Node) (s : St) :
  hasAttribute n "id" = false →
  getControllingElements document (Some n) s
  = Ok (None, mkSt (href s) (console s ++ [Warn LacksId])).
Proof.
  intros Hid. unfold getControllingElements. run. cbn [deref].
  rewrite Hid. reflexivity.
Qed.

Lemma prefix_empty (s : string) : String.prefix "" s = true.
Proof. by destruct s. Qed.

Lemma prefix_cons (c : ascii) (w s : string) :
  String.prefix (String c w) (String c s) = String.prefix w s.
Proof. cbn. by destruct (ascii_dec c c). Qed.

(** The first word of a split is a prefix of the text. *)
Lemma split_space_head_prefix (s w : string) (ws : list string) :
  split_space s = w :: ws → String.prefix w s = true.
Proof.
  revert w ws. induction s as [|c s IH]; intros w ws H; cbn in H.
  - by inversion H.
  - case_bool_decide.
    + inversion H. apply prefix_empty.
    + destruct (split_space s) as [|w' ws'] eqn:E; inversion H; subst;
        rewrite prefix_cons; [apply prefix_empty | by eapply IH].
Qed.

(** A member of the reference list occurs in the attribute text, so every
    element that lists the identifier is among those returned. *)
Lemma split_space_member_includes (s id : string) :
  id ∈ split_space s → includes s id = true.
Proof.
  induction s as [|c s IH]; intros Hin; cbn in Hin.
  - apply list_elem_of_singleton in Hin as ->. reflexivity.
  - cbn [includes]. apply orb_true_iff. case_bool_decide.
    + apply elem_of_cons in Hin as [-> | Hin]; [by left | right; auto].
    + destruct (split_space s) as [|w ws] eqn:E.
      * apply list_elem_of_singleton in Hin as ->. left.
        rewrite prefix_cons. apply prefix_empty.
      * apply elem_of_cons in Hin as [-> | Hin].
        -- left. rewrite prefix_cons. by eapply split_space_head_prefix.
        -- right. apply IH. by right.
Qed.

(** C4 on [page]: for the panel [tab1] the lookup returns the button whose
    references are ["tab10"], although [tab1] is not one of its members,
    next to the button that does list it. *)
Theorem getControllingElements_substring_match :
  getControllingElements page (Some (el "DIV" [("id", "tab1")])) st0
  = Ok (Some [el "BUTTON" [("aria-controls", "tab10")];
              el "BUTTON" [("aria-controls", "x tab1")]], st0) ∧
  ("tab1" ∉ split_space "tab10") ∧
  ("tab1" ∈ split_space "x tab1").
Proof.
  split; [reflexivity |]. split.
  - intros H. apply list_elem_of_In in H. cbn in H.
    destruct H as [H | []]. discriminate H.
  - apply list_elem_of_In. cbn. right; left; reflexivity.
Qed.

(** ** Taking a region out of the tab order and putting it back *)

Lemma Tree_ind_kids (P : Tree → Prop) :
  (∀ n ks, Forall P ks → P (T n ks)) → ∀ t, P t.
Proof.
  intros step. fix IH 1. intros [n ks]. apply step.
  induction ks as [|k ks IHks]; constructor; [apply IH | exact IHks].
Qed.

Lemma flat_map_flat_map (g : Tree → Tree) (h : Node → Node) (ks : list Tree) :
  Forall (λ k, flat (g k) = map h (flat k)) ks →
  flat_map flat (map g ks) = map h (flat_map flat ks).
Proof.
  induction 1 as [|k ks Hk _ IH]; [reflexivity |].
  cbn. rewrite Hk, IH, map_app. reflexivity.
Qed.

Lemma flat_update_where (p : Node → bool) (f : Node → Node) (t : Tree) :
  flat (update_where p f t) = map (λ n, if p n then f n else n) (flat t).
Proof.
  induction t as [n ks IH] using Tree_ind_kids.
  cbn [update_where flat map]. f_equal. by apply flat_map_flat_map.
Qed.

Lemma descendants_forEach_selected
    (c : Tree) (sel : list simple_sel) (f : Node → Node) :
  descendants (forEach_selected c sel f)
  = map (λ n, if matches sel n then f n else n) (descendants c).
Proof.
  destruct c as [n ks]. cbn [forEach_selected descendants].
  apply flat_map_flat_map, Forall_forall. intros k _.
  apply flat_update_where.
Qed.

(** One call rewrites the descendants pointwise, in document order. *)
Lemma descendants_makeUntabbable (c : Tree) (b : bool) :
  descendants (makeUntabbable c b) = map (retab b) (descendants c).
Proof. apply descendants_forEach_selected. Qed.

Lemma matches1_setAttribute_other (n : Node) (k v : string) (s : simple_sel) :
  sel_reads s ≠ Some k →
  matches1 (setAttribute n k v) s = matches1 n s.
Proof.
  intros H.
  destruct s as [tag | a | a w | tag a w]; cbn in H |- *;
    unfold hasAttribute, getAttribute; cbn [attrs setAttribute tagName];
    try rewrite lookup_insert_ne by congruence; reflexivity.
Qed.

Lemma matches_setAttribute_other
    (sel : list simple_sel) (n : Node) (k v : string) :
  Forall (λ s, sel_reads s ≠ Some k) sel →
  matches sel (setAttribute n k v) = matches sel n.
Proof.
  unfold matches. induction 1 as [|s sel Hs _ IH]; [reflexivity |].
  cbn [existsb]. by rewrite matches1_setAttribute_other, IH.
Qed.

Lemma focusableByNature_ignores_tabindex :
  Forall (λ s, sel_reads s ≠ Some "tabindex") focusableByNature.
Proof. repeat constructor; discriminate. Qed.

Lemma matches_focusableElements (n : Node) :
  matches focusableElements n
  = matches focusableByNature n || matches1 n (SelAttrNot "tabindex" "-1").
Proof.
  change focusableElements
    with (focusableByNature ++ [SelAttrNot "tabindex" "-1"])%list.
  unfold matches. rewrite existsb_app. cbn [existsb].
  by rewrite orb_false_r.
Qed.

(** Once [tabindex] is ["-1"], only the other members of the selector can
    still match. *)
Lemma matches_after_untab (n : Node) :
  matches focusableElements (setAttribute n "tabindex" "-1")
  = matches focusableByNature n.
Proof.
  rewrite matches_focusableElements.
  rewrite (matches_setAttribute_other _ _ _ _ focusableByNature_ignores_tabindex).
  cbn [matches1]. unfold hasAttribute, getAttribute, seq_opt.
  cbn [attrs setAttribute]. rewrite lookup_insert_eq.
  rewrite (bool_decide_eq_true_2 (Some "-1" = Some "-1")) by reflexivity.
  cbn [negb andb]. by rewrite andb_false_r, orb_false_r.
Qed.

(** The round trip on one element that the selector matched at first: it is
    put back at ["0"] when it matches by tag, [href], [accesskey] or
    [contenteditable], whatever its earlier [tabindex]; it stays at ["-1"]
    when its [tabindex] was all that matched. *)
Lemma retab_round_trip (el : Node) :
  matches focusableElements el = true →
  getAttribute (retab false (retab true el)) "tabindex"
  = Some (if matches focusableByNature el then "0" else "-1").
Proof.
  intros Hm. unfold retab at 2. rewrite Hm.
  unfold retab. rewrite matches_after_untab.
  destruct (matches focusableByNature el);
    unfold getAttribute; cbn [attrs setAttribute];
    by rewrite lookup_insert_eq.
Qed.

Lemma makeUntabbable_round_trip (c : Tree) (i : nat) (el : Node) :
  descendants c !! i = Some el →
  matches focusableElements el = true →
  ∃ el',
    descendants (makeUntabbable (makeUntabbable c true) false) !! i = Some el' ∧
    getAttribute el' "tabindex"
    = Some (if matches focusableByNature el then "0" else "-1").
Proof.
  intros Hi Hm. exists (retab false (retab true el)). split.
  - rewrite !descendants_makeUntabbable, !list_lookup_fmap, Hi. reflexivity.
  - by apply retab_round_trip.
Qed.

(** C5 at a region holding [<div tabindex="0">]: the element matches the
    selector at first, and after [makeUntabbable(c, true)] followed by
    [makeUntabbable(c, false)] its [tabindex] is ["-1"], not ["0"]. *)
Theorem makeUntabbable_round_trip_loses_tabindex_only :
  querySelectorAll region focusableElements = [el "DIV" [("tabindex", "0")]] ∧
  descendants (makeUntabbable (makeUntabbable region true) false)
  = [el "DIV" [("tabindex", "-1")]].
Proof. split; reflexivity. Qed.

(** Where the round trip does end at ["0"]: a button, also one that had
    [tabindex="3"]. *)
Example makeUntabbable_round_trip_button :
  descendants
    (makeUntabbable
       (makeUntabbable (T (el "SECTION" [])
                          [T (el "BUTTON" [("tabindex", "3")]) []]) true)
       false)
  = [el "BUTTON" [("tabindex", "0")]].
Proof. reflexivity. Qed.

(** * Further properties *)

(** ** The focus set *)

Lemma filter_all {A} (P : A → Prop) `{!∀ x, Decision (P x)} (l : list A) :
  Forall P l → filter P l = l.
Proof.
  induction 1 as [|x l Hx _ IH]; [reflexivity |].
  by rewrite filter_cons_True, IH.
Qed.

Lemma filter_none {A} (P : A → Prop) `{!∀ x, Decision (P x)} (l : list A) :
  Forall (λ x, ¬ P x) l → filter P l = [].
Proof.
  induction 1 as [|x l Hx _ IH]; [reflexivity |].
  by rewrite filter_cons_False.
Qed.

Lemma canBeFocused_element (r : Rendering) (n : Node) :
  canBeFocused r (Some n) = Ok (ok_true (canBeFocused r (Some n))).
Proof. unfold canBeFocused. run. cbn [deref ok_true]. by case_match. Qed.

Lemma canBeFocused_tabIndex (r : Rendering) (n : Node) :
  ok_true (canBeFocused r (Some n)) = true → (tabIndex r n >? -1)%Z = true.
Proof.
  unfold canBeFocused. run. cbn [deref ok_true].
  destruct (tabIndex r n >? -1)%Z; [done |]. cbn. discriminate.
Qed.

Lemma getFocusableElements_filter (r : Rendering) (c : Tree) :
  getFocusableElements r c
  = Ok (filter (λ n, ok_true (canBeFocused r (Some n)) = true)
               (querySelectorAll c focusableElements)).
Proof.
  unfold getFocusableElements. apply filterR_total.
  intros n _. apply canBeFocused_element.
Qed.

(** X1: [getFocusableElements] always answers a list, in document order,
    of descendants; the [find] of [getFirstFocusableNode] and of
    [getLastFocusableNode] rejects nothing, so they answer the first and the
    last element of that list ([undefined] when it is empty). *)
Theorem first_last_focusable (r : Rendering) (c : Tree) :
  ∃ l, getFocusableElements r c = Ok l ∧
       l `sublist_of` descendants c ∧
       getFirstFocusableNode r c = Ok (head l) ∧
       getLastFocusableNode r c = Ok (last l).
Proof.
  eexists. split; [apply getFocusableElements_filter |].
  set (l := filter _ (querySelectorAll c focusableElements)).
  assert (Forall (λ x, (tabIndex r x >? -1)%Z = true) l) as Hall.
  { apply Forall_forall. intros x [Hx _]%list_elem_of_filter.
    by apply canBeFocused_tabIndex. }
  split; [| split].
  - subst l. unfold querySelectorAll.
    etrans; apply sublist_filter.
  - unfold getFirstFocusableNode. rewrite getFocusableElements_filter.
    fold l. run. unfold find_first. by rewrite (filter_all _ l Hall).
  - unfold getLastFocusableNode. rewrite getFocusableElements_filter.
    fold l. run. unfold find_first.
    rewrite filter_reverse, (filter_all _ l Hall). by rewrite head_reverse.
Qed.

Lemma querySelectorAll_makeUntabbable (c : Tree) (b : bool) :
  querySelectorAll (makeUntabbable c b) focusableElements
  = filter (λ n, matches focusableElements n = true)
           (map (retab b) (descendants c)).
Proof. unfold querySelectorAll. by rewrite descendants_makeUntabbable. Qed.

(** X2: once [makeUntabbable(c, true)] has run, and given that the
    [tabIndex] property of an element with [tabindex="-1"] is -1, the region
    has no focusable element: the list is empty and there is neither a first
    nor a last focusable node. *)
Theorem untabbable_region_has_no_focusable (r : Rendering) (c : Tree) :
  (∀ n, getAttribute n "tabindex" = Some "-1" → tabIndex r n = (-1)%Z) →
  getFocusableElements r (makeUntabbable c true) = Ok [] ∧
  getFirstFocusableNode r (makeUntabbable c true) = Ok None ∧
  getLastFocusableNode r (makeUntabbable c true) = Ok None.
Proof.
  intros Htab.
  assert (getFocusableElements r (makeUntabbable c true) = Ok []) as H.
  { rewrite getFocusableElements_filter. f_equal. apply filter_none.
    apply Forall_forall. intros x Hx Hfoc.
    rewrite querySelectorAll_makeUntabbable in Hx.
    apply list_elem_of_filter in Hx as [Hm Hx].
    apply list_elem_of_fmap in Hx as [y [-> _]].
    apply canBeFocused_tabIndex in Hfoc.
    unfold retab in Hm, Hfoc.
    destruct (matches focusableElements y) eqn:Hy; [| congruence].
    rewrite Htab in Hfoc; [discriminate |].
    unfold getAttribute. cbn. apply lookup_insert_eq. }
  split; [exact H |].
  unfold getFirstFocusableNode, getLastFocusableNode. rewrite H.
  split; reflexivity.
Qed.

Lemma untabbable_region_has_no_focusable_witness :
  getFocusableElements plain_rendering toolbar
  = Ok [el "BUTTON" []; el "A" [("href", "x"); ("tabindex", "3")]] ∧
  getFocusableElements plain_rendering (makeUntabbable toolbar true) = Ok [].
Proof.
  split; [reflexivity |].
  apply (untabbable_region_has_no_focusable plain_rendering toolbar).
  intros n Hn. cbn. unfold seq_opt. rewrite Hn. reflexivity.
Defined.

(** ** Writers *)

(** Normalise lookups in updated attribute maps and use the recorded
    answers of the membership tests. *)
Ltac norm :=
  repeat (progress
    (cbn -[some_eq];
     rewrite ?lookup_insert_ne, ?lookup_delete_ne by done;
     rewrite ?lookup_insert_eq, ?lookup_delete_eq, ?insert_insert_eq,
             ?delete_delete_eq;
     repeat match goal with
            | H : some_eq _ _ = _ |- _ => rewrite H
            end)).

Lemma hasAttribute_lookup tag m d c sl txt k :
  hasAttribute (mkNode tag m d c sl txt) k
  = match m !! k with Some _ => true | None => false end.
Proof.
  unfold hasAttribute. cbn. destruct (m !! k).
  - apply bool_decide_eq_true_2. eauto.
  - apply bool_decide_eq_false_2. by intros [? ?].
Qed.

Lemma some_eq_link : some_eq disabledRoles (Some "link") = true.
Proof. reflexivity. Qed.

Lemma select_idempotent t v s :
  (select t v ≫= λ t' : target, select t' v) s = select t v s.
Proof.
  destruct t as [[tag m d c sl txt]|]; [| reflexivity].
  unfold select, canSelect, tagName_opt, role_opt, getAttribute,
    setAttribute, set_selected.
  run. cbn -[some_eq].
  destruct (some_eq selectedTags (Some tag)) eqn:E1;
    destruct (some_eq selectedRoles (m !! "role")) eqn:E2; norm; reflexivity.
Qed.

Lemma check_idempotent t v s :
  (check t v ≫= λ t' : target, check t' v) s = check t v s.
Proof.
  destruct t as [[tag m d c sl txt]|]; [| reflexivity].
  unfold check, canCheck, tagName_opt, role_opt, getAttribute,
    setAttribute, set_checked.
  run. cbn -[some_eq seq_opt].
  destruct (some_eq checkedTags (Some tag)) eqn:E1;
    destruct (some_eq checkedRoles (m !! "role")) eqn:E2;
    destruct (seq_opt "radio" (m !! "type")) eqn:E3;
    destruct (seq_opt "checkbox" (m !! "type")) eqn:E4;
    repeat (progress (norm; cbn -[some_eq seq_opt];
                      rewrite ?lookup_insert_ne by done; rewrite ?E3, ?E4));
    reflexivity.
Qed.

Lemma expand_idempotent t v s :
  (expand t v ≫= λ t' : target, expand t' v) s = expand t v s.
Proof.
  destruct t as [[tag m d c sl txt]|]; [| reflexivity].
  unfold expand, canExpand, getControls, attr_of, tagName_opt, role_opt,
    getAttribute, setAttribute.
  run. cbn -[some_eq split_space].
  destruct (some_eq expandedTags (Some tag)
            || some_eq expandedRoles (m !! "role")) eqn:E1;
    [| cbn -[some_eq split_space]; rewrite ?E1; reflexivity].
  cbn -[some_eq split_space].
  destruct (m !! "aria-controls") as [ctl|] eqn:E2; [| reflexivity].
  cbn -[some_eq split_space].
  pose proof (split_space_length ctl) as Hl.
  destruct (split_space ctl) as [|w ws] eqn:E3; [cbn in Hl; lia |].
  cbn -[some_eq split_space].
  rewrite !lookup_insert_ne by done. rewrite E1. cbn -[some_eq split_space].
  rewrite E2. cbn -[some_eq split_space]. rewrite E3. cbn.
  by rewrite insert_insert_eq.
Qed.

Lemma disable_idempotent t v s :
  (disable t v ≫= λ t' : target, disable t' v) s = disable t v s.
Proof.
  destruct t as [[tag m d c sl txt]|]; [| reflexivity].
  unfold disable, handleDisableHref, set_href, get_href, canDisable,
    tagName_opt, role_opt.
  run. cbn -[some_eq hasAttribute seq_str].
  unfold set_disabled, setAttribute, removeAttribute, getAttribute.
  cbn -[some_eq hasAttribute seq_str].
  rewrite !hasAttribute_lookup.
  destruct (some_eq disabledTags (Some tag)) eqn:E1;
    destruct (some_eq disabledRoles (m !! "role")) eqn:E2;
    destruct (seq_str tag "A") eqn:E3;
    destruct (m !! "href") as [h|] eqn:E4;
    destruct v;
    repeat (progress
      (norm; cbn -[some_eq hasAttribute seq_str];
       rewrite ?hasAttribute_lookup, ?some_eq_link, ?some_eq_None;
       rewrite ?lookup_insert_ne, ?lookup_delete_ne by done;
       rewrite ?E3, ?E4)); try reflexivity.
  all: rewrite (insert_id m "href" h E4);
    rewrite (insert_id (delete "role" m) "href" h)
      by (by rewrite lookup_delete_ne);
    by rewrite delete_delete_eq.
Qed.

(** X3: every writer is idempotent: calling it a second time with the same
    value, on the element and instance state the first call left, changes
    nothing more (and a call that throws throws again). *)
Theorem writer_idempotent (a : Axis) (t : target) (v : bool) (s : St) :
  (writer a t v ≫= λ t' : target, writer a t' v) s = writer a t v s.
Proof.
  destruct a; cbn [writer].
  - apply disable_idempotent.
  - apply select_idempotent.
  - apply check_idempotent.
  - apply expand_idempotent.
Qed.

(** ** Reading back what a writer wrote *)

Lemma tag_is_INPUT tag :
  some_eq checkedTags (Some tag) = bool_decide (tag = "INPUT").
Proof.
  cbn. rewrite orb_false_r. unfold seq_opt. apply bool_decide_ext.
  split; [by intros [= ->] | by intros ->].
Qed.

Lemma supports_by_role (a : Axis) (n : Node) :
  some_eq (axis_roles a) (getAttribute n "role") = true →
  supports a (Some n) = true.
Proof.
  intros H. destruct a; cbn [supports axis_roles] in *;
    unfold canDisable, canSelect, canCheck, canExpand, role_opt;
    cbn [mbind option_bind]; rewrite H; apply orb_true_r.
Qed.


Lemma reader_of_aria (a : Axis) (n : Node) (v : bool) :
  supports a (Some n) = true →
  getAttribute n (aria_attr a) = Some (String_of_bool v) →
  reader a (Some n) = Ok v.
Proof.
  intros Hs Ha.
  destruct a; cbn [reader aria_attr supports] in *;
    unfold isDisabled, isSelected, isChecked, isExpanded, attr_of;
    rewrite Hs; run; cbn [negb deref]; rewrite Ha; by destruct v.
Qed.

Lemma getAttribute_set_eq (n : Node) (k v : string) :
  getAttribute (setAttribute n k v) k = Some v.
Proof. unfold getAttribute. cbn. apply lookup_insert_eq. Qed.

Lemma getAttribute_set_ne (n : Node) (k k' v : string) :
  k ≠ k' → getAttribute (setAttribute n k v) k' = getAttribute n k'.
Proof. intros H. unfold getAttribute. cbn. by apply lookup_insert_ne. Qed.

Lemma select_by_role (n : Node) (v : bool) (s : St) :
  some_eq selectedRoles (getAttribute n "role") = true →
  select (Some n) v s
  = Ok (Some (setAttribute
                (if some_eq selectedTags (Some (tagName n))
                 then set_selected n v else n)
                "aria-selected" (String_of_bool v)), s).
Proof.
  intros H. unfold select.
  pose proof (supports_by_role Selectable n H) as Hs. cbn [supports] in Hs.
  rewrite Hs. run. cbn [negb deref].
  destruct (some_eq selectedTags (Some (tagName n)));
    [change (getAttribute (set_selected n v) "role")
       with (getAttribute n "role") |];
    by rewrite H.
Qed.

Lemma check_by_role (n : Node) (v : bool) (s : St) :
  some_eq checkedRoles (getAttribute n "role") = true →
  (tagName n = "INPUT" →
   getAttribute n "type" = Some "radio" ∨
   getAttribute n "type" = Some "checkbox") →
  check (Some n) v s
  = Ok (Some (setAttribute
                (if some_eq checkedTags (Some (tagName n))
                 then set_checked n v else n)
                "aria-checked" (String_of_bool v)), s).
Proof.
  intros H Hty. unfold check.
  pose proof (supports_by_role Checkable n H) as Hs. cbn [supports] in Hs.
  rewrite Hs. run. cbn [negb deref].
  destruct (some_eq checkedTags (Some (tagName n))) eqn:E.
  - rewrite tag_is_INPUT in E. apply bool_decide_eq_true_1 in E.
    replace (negb (seq_opt "radio" (getAttribute n "type")) &&
             negb (seq_opt "checkbox" (getAttribute n "type"))) with false
      by (destruct (Hty E) as [-> | ->]; reflexivity).
    change (getAttribute (set_checked n v) "role")
      with (getAttribute n "role").
    by rewrite H.
  - by rewrite H.
Qed.

Lemma disable_by_role (n : Node) (v : bool) (s : St) :
  some_eq disabledRoles (getAttribute n "role") = true →
  (tagName n = "A" → getAttribute n "href" = None) →
  disable (Some n) v s
  = Ok (Some (setAttribute
                (if some_eq disabledTags (Some (tagName n))
                 then set_disabled n v else n)
                "aria-disabled" (String_of_bool v)), s).
Proof.
  intros H Hh. unfold disable.
  pose proof (supports_by_role Disableable n H) as Hs. cbn [supports] in Hs.
  rewrite Hs. run. cbn [negb deref].
  destruct (some_eq disabledTags (Some (tagName n))) eqn:E.
  - cbn [tagName set_disabled].
    destruct (seq_str (tagName n) "A") eqn:EA.
    + apply bool_decide_eq_true_1 in EA.
      rewrite (hasAttribute_None (set_disabled n v) "href") by (by apply Hh).
      cbn [andb].
      change (getAttribute (set_disabled n v) "role")
        with (getAttribute n "role").
      by rewrite H.
    + cbn [andb].
      change (getAttribute (set_disabled n v) "role")
        with (getAttribute n "role").
      by rewrite H.
  - by rewrite H.
Qed.

(** X4: when the role of a node is in the role set of an axis, the writer
    of the axis succeeds and the reader then answers the value written.
    Left out are the cases where the role branch is not reached or the role
    is rewritten: an anchor that has a target (disable), an [INPUT] whose
    type is neither [radio] nor [checkbox] (check), and a node without
    [aria-controls] (expand). *)
Theorem write_then_read (a : Axis) (n : Node) (v : bool) (s : St) :
  some_eq (axis_roles a) (getAttribute n "role") = true →
  (a = Disableable → tagName n = "A" → getAttribute n "href" = None) →
  (a = Checkable → tagName n = "INPUT" →
   getAttribute n "type" = Some "radio" ∨
   getAttribute n "type" = Some "checkbox") →
  (a = Expandable → is_Some (getAttribute n "aria-controls")) →
  ∃ n', writer a (Some n) v s = Ok (Some n', s) ∧
        reader a (Some n') = Ok v.
Proof.
  intros Hrole Hd Hc He.
  pose proof (supports_by_role a n Hrole) as Hs.
  assert (∀ m : Node,
            getAttribute (setAttribute m (aria_attr a) (String_of_bool v))
                         "role" = getAttribute m "role") as Hkeep.
  { intros m. apply getAttribute_set_ne. by destruct a. }
  destruct a; cbn [writer axis_roles axis_tags] in *.
  - rewrite (disable_by_role n v s Hrole (Hd eq_refl)).
    eexists. split; [reflexivity |].
    apply reader_of_aria; [| apply getAttribute_set_eq].
    apply supports_by_role. cbn [axis_roles aria_attr] in *. rewrite Hkeep.
    by destruct (some_eq disabledTags _).
  - rewrite (select_by_role n v s Hrole).
    eexists. split; [reflexivity |].
    apply reader_of_aria; [| apply getAttribute_set_eq].
    apply supports_by_role. cbn [axis_roles aria_attr] in *. rewrite Hkeep.
    by destruct (some_eq selectedTags _).
  - rewrite (check_by_role n v s Hrole (Hc eq_refl)).
    eexists. split; [reflexivity |].
    apply reader_of_aria; [| apply getAttribute_set_eq].
    apply supports_by_role. cbn [axis_roles aria_attr] in *. rewrite Hkeep.
    by destruct (some_eq checkedTags _).
  - destruct (He eq_refl) as [ctl Hctl].
    rewrite (expand_with_controls n ctl v s Hs Hctl).
    eexists. split; [reflexivity |].
    apply reader_of_aria; [| apply getAttribute_set_eq].
    apply supports_by_role. cbn [axis_roles aria_attr] in *.
    by rewrite Hkeep.
Qed.

Lemma write_then_read_witness :
  ∃ n', writer Checkable (Some (el "DIV" [("role", "switch")])) true st0
        = Ok (Some n', st0) ∧
        reader Checkable (Some n') = Ok true.
Proof.
  apply (write_then_read Checkable (el "DIV" [("role", "switch")]) true st0);
    [reflexivity | discriminate | discriminate | discriminate].
Defined.

(** ** What the writers leave alone *)

Lemma supports_tag_role (a : Axis) (n n' : Node) :
  tagName n' = tagName n →
  getAttribute n' "role" = getAttribute n "role" →
  supports a (Some n') = supports a (Some n).
Proof.
  intros Ht Hr.
  destruct a; cbn [supports];
    unfold canDisable, canSelect, canCheck, canExpand, tagName_opt, role_opt;
    cbn [fmap option_fmap option_map mbind option_bind];
    by rewrite Ht, Hr.
Qed.

(** What a writer can change on an element. *)
Lemma writer_keeps (a : Axis) (n n' : Node) (v : bool) (s s' : St) :
  writer a (Some n) v s = Ok (Some n', s') →
  tagName n' = tagName n ∧ innerText n' = innerText n ∧
  console s' = console s ∧ (a ≠ Disableable → s' = s) ∧
  (a ≠ Disableable → disabled n' = disabled n) ∧
  (a ≠ Checkable → checked n' = checked n) ∧
  (a ≠ Selectable → selected n' = selected n) ∧
  ∀ k, k ∉ touched a → getAttribute n' k = getAttribute n k.
Proof.
  destruct n as [tag m d c sl txt].
  destruct a; cbn [writer touched].
  - unfold disable, handleDisableHref, set_href, get_href.
    destruct (canDisable _); [| intros [= <- <-]; by repeat split].
    run. cbn -[some_eq hasAttribute seq_str].
    unfold set_disabled, setAttribute, removeAttribute, getAttribute.
    cbn -[some_eq hasAttribute seq_str].
    rewrite !hasAttribute_lookup.
    destruct (some_eq disabledTags (Some tag));
      destruct (seq_str tag "A");
      destruct (m !! "href") as [h|] eqn:E4;
      destruct v; cbn -[some_eq];
      repeat match goal with
             | |- context [some_eq disabledRoles ?x] =>
                 destruct (some_eq disabledRoles x)
             end;
      intros [= <- <-]; cbn; repeat split; try done;
      intros k Hk;
      apply not_elem_of_cons in Hk as [? Hk];
      apply not_elem_of_cons in Hk as [? Hk];
      apply not_elem_of_cons in Hk as [? Hk];
      by repeat first [rewrite lookup_insert_ne by done
                      | rewrite lookup_delete_ne by done].
  - unfold select.
    destruct (canSelect _); [| intros [= <- <-]; by repeat split].
    run. cbn -[some_eq].
    unfold set_selected, setAttribute, getAttribute. cbn -[some_eq].
    destruct (some_eq selectedTags (Some tag)); cbn -[some_eq];
      destruct (some_eq selectedRoles (m !! "role"));
      intros [= <- <-]; cbn; repeat split; try done;
      intros k Hk; apply not_elem_of_cons in Hk as [? Hk];
      by rewrite ?lookup_insert_ne by done.
  - unfold check.
    destruct (canCheck _); [| intros [= <- <-]; by repeat split].
    run. cbn -[some_eq seq_opt].
    unfold set_checked, setAttribute, getAttribute. cbn -[some_eq seq_opt].
    destruct (some_eq checkedTags (Some tag)); cbn -[some_eq seq_opt];
      destruct (some_eq checkedRoles (m !! "role"));
      destruct (seq_opt "radio" (m !! "type"));
      destruct (seq_opt "checkbox" (m !! "type")); cbn -[some_eq seq_opt];
      intros [= <- <-]; cbn; repeat split; try done;
      intros k Hk; apply not_elem_of_cons in Hk as [? Hk];
      by rewrite ?lookup_insert_ne by done.
  - unfold expand, getControls, attr_of.
    destruct (canExpand _); [| intros [= <- <-]; by repeat split].
    run. cbn -[split_space].
    unfold setAttribute, getAttribute. cbn -[split_space].
    destruct (m !! "aria-controls") as [ctl|]; [| discriminate].
    cbn -[split_space].
    pose proof (split_space_length ctl) as Hl.
    destruct (split_space ctl) as [|w ws]; [cbn in Hl; lia |].
    cbn. intros [= <- <-]; cbn; repeat split; try done;
      intros k Hk; apply not_elem_of_cons in Hk as [? Hk];
      by rewrite ?lookup_insert_ne by done.
Qed.




(** X7: [select], [check] and [expand] never change what a node is capable
    of: after the call every classifier answers as before. *)
Theorem writer_preserves_capability
    (a a' : Axis) (n n' : Node) (v : bool) (s s' : St) :
  a ≠ Disableable →
  writer a (Some n) v s = Ok (Some n', s') →
  supports a' (Some n') = supports a' (Some n).
Proof.
  intros Ha Hw.
  destruct (writer_keeps a n n' v s s' Hw)
    as (Ht & _ & _ & _ & _ & _ & _ & Hk).
  apply supports_tag_role; [exact Ht |].
  apply Hk. destruct a; [done | | |]; cbn;
    intros H%list_elem_of_singleton; discriminate H.
Qed.

Lemma writer_preserves_capability_witness :
  supports Disableable
    (Some (el "DIV" [("role", "tab"); ("aria-selected", "true")]))
  = supports Disableable (Some (el "DIV" [("role", "tab")])).
Proof.
  apply (writer_preserves_capability Selectable Disableable
           (el "DIV" [("role", "tab")])
           (el "DIV" [("role", "tab"); ("aria-selected", "true")])
           true st0 st0).
  - discriminate.
  - reflexivity.
Defined.

(** X8: what [disable] does to the element, and whether it throws, does not
    depend on the target remembered in [this.href]: the cell is overwritten
    before it is read. *)
Theorem disable_ignores_remembered_href (t : target) (v : bool) (s1 s2 : St) :
  outcome (disable t v s1) = outcome (disable t v s2).
Proof.
  destruct t as [[tag m d c sl txt]|]; [| reflexivity].
  unfold disable, handleDisableHref, set_href, get_href.
  destruct (canDisable _); [| reflexivity].
  run. cbn -[some_eq hasAttribute seq_str].
  destruct (some_eq disabledTags (Some tag)); [| by destruct (some_eq _ _)].
  destruct (seq_str tag "A" && hasAttribute _ "href"); [| by destruct (some_eq _ _)].
  destruct v; cbn -[some_eq]; by destruct (some_eq _ _).
Qed.

(** X9: a node that reads as mixed does not read as checked. *)
Theorem isMixed_excludes_isChecked (t : target) :
  isMixed t = Ok true → isChecked t = Ok false.
Proof.
  unfold isMixed, isChecked, attr_of.
  destruct (canCheck t); [| discriminate].
  destruct t as [n|]; [| discriminate].
  run. cbn [negb deref].
  intros [= H]. apply bool_decide_eq_true_1 in H. rewrite H. reflexivity.
Qed.

Lemma isMixed_excludes_isChecked_witness :
  isMixed (Some (box [("aria-checked", "mixed")] true)) = Ok true ∧
  isChecked (Some (box [("aria-checked", "mixed")] true)) = Ok false.
Proof.
  split; [reflexivity |].
  apply (isMixed_excludes_isChecked
           (Some (box [("aria-checked", "mixed")] true))).
  reflexivity.
Defined.



(** ** Label text, further *)

Lemma getLabelText_labelledby (document : Tree) (n : Node) (refs : string) (s : St) :
  getAttribute n "aria-labelledby" = Some refs →
  getLabelText document (Some n) s
  = lift (push_texts (map (getElementById document) (split_space refs))
          ≫= λ labels : list string, mret (join_space labels)) s.
Proof.
  intros H. unfold getLabelText, getLabelledbyElements, getLabelledby, attr_of.
  run. cbn [deref]. rewrite H. cbn [fmap option_fmap option_map array_of].
  rewrite bool_decide_eq_true_2 by eauto.
  by destruct (push_texts _).
Qed.

(** X10: when every identifier of [aria-labelledby] resolves,
    [getLabelText] answers the texts of the referenced elements, in
    reference order, joined by single spaces, and leaves the state alone. *)
Theorem getLabelText_joins_resolved
    (document : Tree) (n : Node) (refs : string) (els : list Node) (s : St) :
  getAttribute n "aria-labelledby" = Some refs →
  map (getElementById document) (split_space refs) = map Some els →
  getLabelText document (Some n) s
  = Ok (join_space (map innerText els), s).
Proof.
  intros H Hres. rewrite (getLabelText_labelledby document n refs s H).
  rewrite Hres. change (map Some els) with (Some <$> els).
  rewrite push_texts_resolved. reflexivity.
Qed.

Lemma getLabelText_joins_resolved_witness :
  getLabelText page (Some (el "INPUT" [("aria-labelledby", "tab1 tab1")])) st0
  = Ok ("First First", st0).
Proof.
  apply (getLabelText_joins_resolved page
           (el "INPUT" [("aria-labelledby", "tab1 tab1")]) "tab1 tab1"
           [mkNode "DIV" {[ "id" := "tab1" ]} false false false "First";
            mkNode "DIV" {[ "id" := "tab1" ]} false false false "First"] st0);
    reflexivity.
Defined.



Lemma getElementById_empty (document : Tree) : getElementById document "" = None.
Proof.
  unfold getElementById. rewrite filter_none; [reflexivity |].
  apply Forall_forall. intros x _ [_ H]. by apply H.
Qed.

(** X12: an empty identifier in [aria-labelledby] (an empty attribute, a
    leading or trailing space, two spaces in a row) makes [getLabelText]
    raise, even when every other identifier resolves and an [aria-label] is
    there. *)
Theorem getLabelText_empty_reference_raises
    (document : Tree) (n : Node) (refs : string) (s : St) :
  getAttribute n "aria-labelledby" = Some refs →
  "" ∈ split_space refs →
  getLabelText document (Some n) s = Throw TypeError.
Proof.
  intros H Hin. rewrite (getLabelText_labelledby document n refs s H).
  rewrite push_texts_null; [reflexivity |].
  rewrite <- (getElementById_empty document).
  apply list_elem_of_fmap. eauto.
Qed.

Lemma getLabelText_empty_reference_raises_witness :
  getLabelText page
    (Some (el "INPUT" [("aria-labelledby", "tab1 "); ("aria-label", "x")])) st0
  = Throw TypeError.
Proof.
  apply (getLabelText_empty_reference_raises page
           (el "INPUT" [("aria-labelledby", "tab1 "); ("aria-label", "x")])
           "tab1 " st0).
  - reflexivity.
  - vm_compute. apply list_elem_of_In. simpl. right; left; reflexivity.
Defined.



(** X13: without [aria-labelledby], a non-empty [aria-label] is the answer,
    whatever the document holds: a [label] element for the node is not
    looked at. *)
Theorem getLabelText_aria_label
    (document : Tree) (n : Node) (l : string) (s : St) :
  getAttribute n "aria-labelledby" = None →
  getAttribute n "aria-label" = Some l →
  l ≠ "" →
  getLabelText document (Some n) s = Ok (l, s).
Proof.
  intros Hby Hl Hne.
  unfold getLabelText, getLabelledby, attr_of. run. cbn [deref].
  rewrite Hby, Hl. cbn [fmap option_fmap option_map].
  rewrite bool_decide_eq_false_2 by (by intros [? ?]).
  rewrite truthy_Some. unfold seq_str. rewrite bool_decide_eq_false_2 by done.
  reflexivity.
Qed.

Lemma getLabelText_aria_label_witness :
  getLabelText page (Some (el "INPUT" [("aria-label", "Name")])) st0
  = Ok ("Name", st0).
Proof.
  apply (getLabelText_aria_label page (el "INPUT" [("aria-label", "Name")])
           "Name" st0); [reflexivity | reflexivity | discriminate].
Defined.

(** X15: the reverse lookup misses no controller: every element of the
    document whose [aria-controls] lists the identifier of the node is in
    the answer, and the answer is in document order. *)
Theorem getControllingElements_complete
    (document : Tree) (n item : Node) (refs : string) (s : St) :
  hasAttribute n "id" = true →
  item ∈ descendants document →
  getAttribute item "aria-controls" = Some refs →
  id_of n ∈ split_space refs →
  ∃ l, getControllingElements document (Some n) s = Ok (Some l, s) ∧
       item ∈ l ∧ l `sublist_of` descendants document.
Proof.
  intros Hid Hin Hrefs Hmem.
  rewrite (getControllingElements_spec document n s Hid).
  eexists. split; [reflexivity |]. split.
  - apply list_elem_of_filter. split.
    + rewrite Hrefs. cbn. by apply split_space_member_includes.
    + apply querySelectorAll_spec. split; [exact Hin |].
      cbn. rewrite orb_false_r. by eapply hasAttribute_Some.
  - unfold querySelectorAll. etrans; apply sublist_filter.
Qed.

Lemma getControllingElements_complete_witness :
  ∃ l, getControllingElements page (Some (el "DIV" [("id", "tab1")])) st0
       = Ok (Some l, st0) ∧
       el "BUTTON" [("aria-controls", "x tab1")] ∈ l ∧
       l `sublist_of` descendants page.
Proof.
  apply (getControllingElements_complete page (el "DIV" [("id", "tab1")])
           (el "BUTTON" [("aria-controls", "x tab1")]) "x tab1" st0).
  - reflexivity.
  - vm_compute. apply list_elem_of_In. simpl. right; right; left; reflexivity.
  - reflexivity.
  - vm_compute. apply list_elem_of_In. simpl. right; left; reflexivity.
Defined.

Lemma includes_empty (s : string) : includes s "" = true.
Proof. destruct s; reflexivity. Qed.

(** X16: a node whose [id] attribute is present but empty passes the guard,
    and every element carrying [aria-controls] is answered as its
    controller. *)
Theorem getControllingElements_empty_id (document : Tree) (n : Node) (s : St) :
  getAttribute n "id" = Some "" →
  getControllingElements document (Some n) s
  = Ok (Some (querySelectorAll document [SelAttr "aria-controls"]), s).
Proof.
  intros Hid.
  rewrite (getControllingElements_spec document n s)
    by (by eapply hasAttribute_Some).
  unfold id_of. rewrite Hid. cbn [default].
  rewrite filter_all; [reflexivity |].
  apply Forall_forall. intros x _. apply includes_empty.
Qed.

Lemma getControllingElements_empty_id_witness :
  getControllingElements page (Some (el "DIV" [("id", "")])) st0
  = Ok (Some [el "BUTTON" [("aria-controls", "tab10")];
              el "BUTTON" [("aria-controls", "x tab1")]], st0).
Proof.
  apply (getControllingElements_empty_id page (el "DIV" [("id", "")]) st0).
  reflexivity.
Defined.

Lemma getElementById_found (document : Tree) (e : Node) (id : string) :
  e ∈ descendants document →
  getAttribute e "id" = Some id →
  id ≠ "" →
  ∃ e', getElementById document id = Some e' ∧
        e' ∈ descendants document ∧ getAttribute e' "id" = Some id.
Proof.
  intros Hin Hid Hne. unfold getElementById.
  destruct (filter _ (descendants document)) as [|e' l] eqn:E.
  - exfalso. eapply (filter_nil_not_elem_of _ _ e E); [| exact Hin]. done.
  - exists e'. split; [reflexivity |].
    assert (e' ∈ filter (λ n, getAttribute n "id" = Some id ∧ id ≠ "")
                        (descendants document)) as H
      by (rewrite E; constructor).
    apply list_elem_of_filter in H as [[? _] ?]. done.
Qed.

(** X17: [getActivedescendantElement] looks up the string form of what
    [getActivedescendant] answers; when the document has an element with
    that identifier, an element with that identifier is returned. This holds
    for ["null"] and ["undefined"] too: a node without
    [aria-activedescendant] resolves to the element whose id is ["null"]. *)
Theorem getActivedescendantElement_resolves
    (document : Tree) (t : target) (e : Node) :
  e ∈ descendants document →
  getAttribute e "id" = Some (ToString (getActivedescendant t)) →
  ToString (getActivedescendant t) ≠ "" →
  ∃ e', getActivedescendantElement document t = Some e' ∧
        e' ∈ descendants document ∧
        getAttribute e' "id" = Some (ToString (getActivedescendant t)).
Proof. intros. by apply getElementById_found with e. Qed.

Lemma getActivedescendantElement_resolves_witness :
  ∃ e', getActivedescendantElement null_page (Some (el "UL" [])) = Some e' ∧
        e' ∈ descendants null_page ∧
        getAttribute e' "id"
        = Some (ToString (getActivedescendant (Some (el "UL" [])))).
Proof.
  apply (getActivedescendantElement_resolves null_page (Some (el "UL" []))
           (el "LI" [("id", "null")])).
  - vm_compute. apply list_elem_of_In. simpl. right; left; reflexivity.
  - reflexivity.
  - discriminate.
Defined.

(** X18: [getControlsElements] answers only for an element that carries
    [aria-controls] (it throws on [null] and when the attribute is absent);
    the answer has one entry per reference, [null] where the reference does
    not resolve, and is never empty. *)
Theorem getControlsElements_answers
    (document : Tree) (t : target) (els : list (option Node)) :
  getControlsElements document t = Ok els →
  ∃ n refs, t = Some n ∧ getAttribute n "aria-controls" = Some refs ∧
            els = map (getElementById document) (split_space refs) ∧
            (1 ≤ length els)%nat.
Proof.
  unfold getControlsElements, getControls, attr_of.
  destruct t as [n|]; [| discriminate]. run. cbn [deref].
  destruct (getAttribute n "aria-controls") as [refs|] eqn:E; [| discriminate].
  cbn. intros [= <-]. exists n, refs. repeat split; [exact E |].
  rewrite length_map. apply split_space_length.
Qed.

Lemma getControlsElements_answers_witness :
  ∃ n refs,
    Some (el "BUTTON" [("aria-controls", "tab1 nope")]) = Some n ∧
    getAttribute n "aria-controls" = Some refs ∧
    [getElementById page "tab1"; None]
    = map (getElementById page) (split_space refs) ∧
    (1 ≤ length [getElementById page "tab1"; None])%nat.
Proof.
  apply (getControlsElements_answers page
           (Some (el "BUTTON" [("aria-controls", "tab1 nope")]))
           [getElementById page "tab1"; None]).
  reflexivity.
Defined.

(** X19: [getLabelledbyElements] likewise answers only for an element that
    carries [aria-labelledby], with one entry per reference and never an
    empty list. *)
Theorem getLabelledbyElements_answers
    (document : Tree) (t : target) (els : list (option Node)) :
  getLabelledbyElements document t = Ok els →
  ∃ n refs, t = Some n ∧ getAttribute n "aria-labelledby" = Some refs ∧
            els = map (getElementById document) (split_space refs) ∧
            (1 ≤ length els)%nat.
Proof.
  unfold getLabelledbyElements, getLabelledby, attr_of.
  destruct t as [n|]; [| discriminate]. run. cbn [deref].
  destruct (getAttribute n "aria-labelledby") as [refs|] eqn:E; [| discriminate].
  cbn. intros [= <-]. exists n, refs. repeat split; [exact E |].
  rewrite length_map. apply split_space_length.
Qed.

Lemma getLabelledbyElements_answers_witness :
  ∃ n refs,
    Some (el "INPUT" [("aria-labelledby", "")]) = Some n ∧
    getAttribute n "aria-labelledby" = Some refs ∧
    [None] = map (getElementById page) (split_space refs) ∧
    (1 ≤ length [@None Node])%nat.
Proof.
  apply (getLabelledbyElements_answers page
           (Some (el "INPUT" [("aria-labelledby", "")])) [None]).
  reflexivity.
Defined.

(** ** The tab order, further *)

Lemma update_where_compose (p : Node → bool) (f g : Node → Node) (t : Tree) :
  (∀ n, (let n1 := if p n then g n else n in if p n1 then f n1 else n1)
        = (if p n then f n else n)) →
  update_where p f (update_where p g t) = update_where p f t.
Proof.
  intros H. induction t as [n ks IH] using Tree_ind_kids.
  cbn [update_where]. f_equal; [apply H |].
  rewrite map_map. apply map_ext_Forall. exact IH.
Qed.

Lemma matches_after_tab (n : Node) :
  matches focusableElements (setAttribute n "tabindex" "0") = true.
Proof.
  rewrite matches_focusableElements. apply orb_true_iff. right.
  cbn [matches1]. unfold hasAttribute, getAttribute, seq_opt.
  cbn [attrs setAttribute]. rewrite lookup_insert_eq.
  rewrite bool_decide_eq_true_2 by eauto.
  by rewrite bool_decide_eq_false_2.
Qed.

Lemma setAttribute_twice (n : Node) (k v w : string) :
  setAttribute (setAttribute n k v) k w = setAttribute n k w.
Proof. unfold setAttribute. cbn. by rewrite insert_insert_eq. Qed.

Lemma retab_compose (b1 b2 : bool) (n : Node) :
  (b1 = true → b2 = true) →
  retab b2 (retab b1 n) = retab b2 n.
Proof.
  intros Hb. unfold retab.
  destruct (matches focusableElements n) eqn:Hm; [| by rewrite Hm].
  destruct b1.
  - rewrite (Hb eq_refl). rewrite matches_after_untab.
    destruct (matches focusableByNature n); [| reflexivity].
    apply setAttribute_twice.
  - rewrite matches_after_tab. apply setAttribute_twice.
Qed.

(** X20: two calls of [makeUntabbable] in a row amount to the second one,
    unless the first removes the region from the tab order and the second
    puts it back; in particular each call is idempotent. *)
Theorem makeUntabbable_last_call_wins (c : Tree) (b1 b2 : bool) :
  (b1 = true → b2 = true) →
  makeUntabbable (makeUntabbable c b1) b2 = makeUntabbable c b2.
Proof.
  intros Hb. destruct c as [n ks].
  unfold makeUntabbable, forEach_selected. f_equal.
  rewrite map_map. apply map_ext. intros k.
  apply update_where_compose. intros m. apply (retab_compose b1 b2 m Hb).
Qed.

Lemma makeUntabbable_last_call_wins_witness :
  makeUntabbable (makeUntabbable toolbar false) true
  = makeUntabbable toolbar true.
Proof.
  apply (makeUntabbable_last_call_wins toolbar false true). discriminate.
Defined.

(** X21: [makeUntabbable] never touches the container itself and keeps the
    descendants in place; a descendant the selector matches has its
    [tabindex] set to ["-1"] or ["0"] (whatever it was), and nothing else
    of it changes; a descendant it does not match is left as it is. *)
Theorem makeUntabbable_frame (c : Tree) (b : bool) (i : nat) (e : Node) :
  descendants c !! i = Some e →
  root (makeUntabbable c b) = root c ∧
  length (descendants (makeUntabbable c b)) = length (descendants c) ∧
  ∃ e', descendants (makeUntabbable c b) !! i = Some e' ∧
        tagName e' = tagName e ∧ innerText e' = innerText e ∧
        disabled e' = disabled e ∧ checked e' = checked e ∧
        selected e' = selected e ∧
        (∀ k, k ≠ "tabindex" → getAttribute e' k = getAttribute e k) ∧
        (matches focusableElements e = true →
         getAttribute e' "tabindex" = Some (if b then "-1" else "0")) ∧
        (matches focusableElements e = false → e' = e).
Proof.
  intros Hi. split; [by destruct c |].
  rewrite descendants_makeUntabbable. split; [apply length_map |].
  exists (retab b e). split; [by rewrite list_lookup_fmap, Hi |].
  unfold retab. destruct (matches focusableElements e).
  - repeat split; try done.
    + intros k Hk. by apply getAttribute_set_ne.
    + intros _. apply getAttribute_set_eq.
  - repeat split; done.
Qed.

Lemma makeUntabbable_frame_witness :
  root (makeUntabbable toolbar false) = root toolbar.
Proof.
  apply (makeUntabbable_frame toolbar false 1
           (el "A" [("href", "x"); ("tabindex", "3")])).
  reflexivity.
Defined.

(** X22: every element [getFocusableElements] answers is a descendant that
    matches the selector, has a [tabIndex] above -1, is laid out, and has
    no [hidden], [disabled] or [data-focus-bumper] attribute and neither
    the class [hidden] nor [d-none]. *)
Theorem getFocusableElements_member
    (r : Rendering) (c : Tree) (l : list Node) (n : Node) :
  getFocusableElements r c = Ok l →
  n ∈ l →
  n ∈ descendants c ∧ matches focusableElements n = true ∧
  (-1 < tabIndex r n)%Z ∧
  (offsetWidth r n ≠ 0%Z ∨ offsetHeight r n ≠ 0%Z ∨ clientRects r n ≠ 0%nat) ∧
  hasAttribute n "hidden" = false ∧
  ("hidden" ∉ classList n) ∧ ("d-none" ∉ classList n) ∧
  hasAttribute n "disabled" = false ∧
  hasAttribute n "data-focus-bumper" = false.
Proof.
  rewrite getFocusableElements_filter. intros [= <-] Hin.
  apply list_elem_of_filter in Hin as [Hok Hin].
  apply querySelectorAll_spec in Hin as [Hd Hm].
  split; [exact Hd |]. split; [exact Hm |].
  unfold canBeFocused in Hok. revert Hok. run. cbn [deref ok_true].
  unfold classList_contains, truthy_Z, truthy_nat.
  destruct (tabIndex r n >? -1)%Z eqn:E1; [| done].
  destruct (hasAttribute n "hidden"); [by rewrite !andb_false_r |].
  destruct (hasAttribute n "disabled"); [by rewrite !andb_false_r |].
  destruct (hasAttribute n "data-focus-bumper"); [by rewrite !andb_false_r |].
  destruct (bool_decide ("hidden" ∈ classList n)) eqn:E2;
    [by rewrite !andb_false_r |].
  destruct (bool_decide ("d-none" ∈ classList n)) eqn:E3;
    [by rewrite !andb_false_r |].
  apply bool_decide_eq_false_1 in E2, E3.
  destruct (offsetWidth r n =? 0)%Z eqn:E4;
    destruct (offsetHeight r n =? 0)%Z eqn:E5;
    destruct (clientRects r n =? 0)%nat eqn:E6; cbn; try done; intros _;
    (split; [lia |]); (split; [| done]).
  all: try (left; lia); try (right; left; lia).
  right; right. by apply Nat.eqb_neq.
Qed.

Lemma getFocusableElements_member_witness :
  hasAttribute (el "BUTTON" []) "disabled" = false.
Proof.
  apply (getFocusableElements_member plain_rendering toolbar
           [el "BUTTON" []; el "A" [("href", "x"); ("tabindex", "3")]]
           (el "BUTTON" [])).
  - reflexivity.
  - constructor.
Defined.
